(** * Plugin hooks around agent tool calls

    A shallow embedding of [src/agents/pi-tools.before-tool-call.ts]:
    the [before_tool_call] and [tool_result_received] hook dispatchers and
    the wrapper that sequences them around a tool's [execute].

    JavaScript values are a closed datatype, objects are finite maps from
    property names to values, promises are their settled outcome
    ([Resolved] or [Rejected]), and the code runs in a state-and-exception
    monad over the state of the outside world.  The hook runner, the
    tools, the name normalizer, the clock and [String] are collaborators
    taken as parameters; each is a function that settles, so a call that
    never settles is not represented.  Values are data: a handler is taken
    not to change the params or result object it is handed in place. *)

From stdpp Require Import base option strings list gmap fin_maps.
From Stdlib Require Import ZArith DecimalString.

(** ** JavaScript values *)

(** Numbers are the integers: the only thing the code asks of a number is
    whether it is truthy.  An object is the finite map of its own
    enumerable properties (the enumeration order is not represented). *)
#[warnings="-register-all"]
Inductive jsval : Type :=
| JUndefined
| JNull
| JBool (b : bool)
| JNum (n : Z)
| JStr (s : string)
| JArr (items : list jsval)
| JObj (props : gmap string jsval).

(** A thrown value: an [Error] or a [TypeError] carrying a message, or
    any other value. *)
Inductive exn : Type :=
| JsError (message : string)
| JsTypeError (message : string)
| JsThrow (v : jsval).

(** A settled promise (equally: the completion of an awaited call). *)
Inductive completion (A : Type) : Type :=
| Resolved (a : A)
| Rejected (e : exn).
Arguments Resolved {A} a.
Arguments Rejected {A} e.

Definition typeof (value : jsval) : string :=
  match value with
  | JUndefined => "undefined"
  | JNull => "object"
  | JBool _ => "boolean"
  | JNum _ => "number"
  | JStr _ => "string"
  | JArr _ => "object"
  | JObj _ => "object"
  end.

Definition Array_isArray (value : jsval) : bool :=
  match value with JArr _ => true | _ => false end.

Definition is_null (value : jsval) : bool :=
  match value with JNull => true | _ => false end.

Definition is_undefined (value : jsval) : bool :=
  match value with JUndefined => true | _ => false end.

(** ToBoolean. *)
Definition truthy (value : jsval) : bool :=
  match value with
  | JUndefined | JNull => false
  | JBool b => b
  | JNum n => negb (n =? 0)%Z
  | JStr s => negb (String.eqb s "")
  | JArr _ | JObj _ => true
  end.

(** [s || d] on strings: the empty string is the falsy one. *)
Definition str_or (s d : string) : string :=
  if String.eqb s "" then d else s.

(** [s || d] on an optional string ([undefined] when absent). *)
Definition opt_str_or (s : option string) (d : string) : string :=
  match s with
  | Some s => str_or s d
  | None => d
  end.

(** The own enumerable properties an object spread [{...value}] copies. *)
Definition own_props (value : jsval) : gmap string jsval :=
  match value with
  | JObj props => props
  | _ => ∅
  end.

(** [{...a, ...b}]: the properties of [b] win. *)
Definition spread2 (a b : jsval) : jsval :=
  JObj (own_props b ∪ own_props a).

(** Lines 15-17. *)
Definition isPlainObject (value : jsval) : bool :=
  String.eqb (typeof value) "object" && negb (is_null value)
  && negb (Array_isArray value).

(** ** The hook interface *)

(** Lines 6-9. *)
Record HookContext : Type := {
  agentId : option string;
  sessionKey : option string;
}.

(** Line 11. *)
Inductive HookOutcome : Type :=
| Blocked (reason : string)
| Allowed (params : jsval).

(** The return type of [runToolResultReceivedHook] (line 74). *)
Record AfterOutcome : Type := {
  blocked : bool;
  reason : option string;
  result : jsval;
}.

(** The event and context objects built at lines 35-43 and 83-93. *)
Record BeforeToolCallEvent : Type := {
  bev_toolName : string;
  bev_params : jsval;
}.

Record ToolResultReceivedEvent : Type := {
  rev_toolName : string;
  rev_params : jsval;
  rev_result : jsval;
  rev_durationMs : option Z;
}.

Record ToolContext : Type := {
  tc_toolName : string;
  tc_agentId : option string;
  tc_sessionKey : option string;
}.

(** What a hook run resolves to, as the code reads it: [block],
    [blockReason], and a replacement that is [JUndefined] when absent.
    The run itself may resolve to [undefined] ([None] below). *)
Record BeforeToolCallResult : Type := {
  bres_block : option bool;
  bres_blockReason : option string;
  bres_params : jsval;
}.

Record ToolResultReceivedResult : Type := {
  rres_block : option bool;
  rres_blockReason : option string;
  rres_result : jsval;
}.

(** The hook runner, over the state [W] of the world outside this file.
    A run is given the event and the context as values and answers with a
    verdict; a handler that rewrites the params or result object it is
    handed in place, instead of answering with a replacement, is outside
    this model. *)
Record HookRunner (W : Type) : Type := {
  hasHooks : string → W → completion bool * W;
  runBeforeToolCall :
    BeforeToolCallEvent → ToolContext → W →
    completion (option BeforeToolCallResult) * W;
  runToolResultReceived :
    ToolResultReceivedEvent → ToolContext → W →
    completion (option ToolResultReceivedResult) * W;
}.
Arguments hasHooks {W} _ _ _.
Arguments runBeforeToolCall {W} _ _ _ _.
Arguments runToolResultReceived {W} _ _ _ _.

(** The collaborators this file imports or calls.  [String_of] is the
    builtin [String] applied to a caught value: it yields a string, or
    throws (for an object that cannot be converted to a primitive). *)
Class Collaborators : Type := {
  World : Type;
  AbortSignal : Type;
  UpdateCallback : Type;
  getGlobalHookRunner : World → option (HookRunner World);
  normalizeToolName : string → string;
  Date_now : World → Z;
  String_of : exn → completion string;
}.

Section Model.
Context `{Collaborators}.

(** ** The monad *)

(** The trace lists, in order, the hook dispatches, the executions of
    tools that are external code, and the warnings logged
    (registry queries are not listed). *)
Inductive Event : Type :=
| EvRunBeforeToolCall (event : BeforeToolCallEvent) (ctx : ToolContext)
| EvRunToolResultReceived (event : ToolResultReceivedEvent) (ctx : ToolContext)
| EvExecute (toolCallId : string) (params : jsval)
            (signal : AbortSignal) (onUpdate : UpdateCallback)
| EvWarn (message : string).

Record State : Type := {
  world : World;
  trace : list Event;
}.

Definition M (A : Type) : Type := State → completion A * State.

Definition ret {A} (a : A) : M A := λ st, (Resolved a, st).

Definition throw {A} (e : exn) : M A := λ st, (Rejected e, st).

Definition bind {A B} (m : M A) (k : A → M B) : M B :=
  λ st, match m st with
        | (Resolved a, st') => k a st'
        | (Rejected e, st') => (Rejected e, st')
        end.

Definition try_catch {A} (body : M A) (handler : exn → M A) : M A :=
  λ st, match body st with
        | (Resolved a, st') => (Resolved a, st')
        | (Rejected e, st') => handler e st'
        end.

(** A call into external code, listed on the trace as [evs]. *)
Definition external {A} (evs : list Event)
    (f : World → completion A * World) : M A :=
  λ st, let '(c, w) := f (world st) in
        (c, {| world := w; trace := trace st ++ evs |}).

(** A query of external code that is not listed on the trace. *)
Definition query {A} (f : World → completion A * World) : M A :=
  λ st, let '(c, w) := f (world st) in
        (c, {| world := w; trace := trace st |}).

Definition get_world : M World := λ st, (Resolved (world st), st).

(** [log.warn(message)] *)
Definition warn (message : string) : M unit :=
  λ st, (Resolved tt, {| world := world st; trace := trace st ++ [EvWarn message] |}).

End Model.

Notation "'let!' x ':=' m 'in' k" := (bind m (λ x, k))
  (at level 10, x name, m at level 100, k at level 200,
   format "'[v' 'let!'  x  :=  m  'in' '/' k ']'").
Notation "m ';;' k" := (bind m (λ _, k))
  (at level 100, k at level 200, right associativity).

Section Hooks.
Context `{Collaborators}.

(** ** Tools *)

(** [execute(toolCallId, params, signal, onUpdate)], as a function of its
    receiver ([this]: the data of the object it is called on, or
    [JUndefined] when it is called detached) and of its four arguments. *)
Definition Exec : Type :=
  jsval → string → jsval → AbortSignal → UpdateCallback → M jsval.

(** A set of properties: the data properties (name, label, description,
    parameters, ...) and the [execute] method, if any. *)
Record Props : Type := {
  data : gmap string jsval;
  method_execute : option Exec;
}.

Definition no_props : Props := {| data := ∅; method_execute := None |}.

(** A tool object: its own enumerable properties, and the properties it
    inherits through its prototype chain (none for an object literal). *)
Record Tool : Type := {
  own : Props;
  inherited : Props;
}.

(** [tool[key]] for a data property: own properties shadow inherited ones. *)
Definition get_data (tool : Tool) (key : string) : option jsval :=
  (data (own tool) ∪ data (inherited tool)) !! key.

(** [tool.execute] *)
Definition execute (tool : Tool) : option Exec :=
  match method_execute (own tool) with
  | Some execute => Some execute
  | None => method_execute (inherited tool)
  end.

(** [tool.name], a string by its type; the empty string stands for an
    absent name (both are falsy). *)
Definition tool_name (tool : Tool) : string :=
  match get_data tool "name" with
  | Some (JStr name) => name
  | _ => ""
  end.

(** What [this] shows of a tool inside a method called on it. *)
Definition receiver (tool : Tool) : jsval :=
  JObj (data (own tool) ∪ data (inherited tool)).

(** An [execute] that is external code: a function of its receiver, its
    arguments and the world, listed on the trace when it is called. *)
Definition external_tool
    (f : jsval → string → jsval → AbortSignal → UpdateCallback →
         World → completion jsval * World) : Exec :=
  λ this toolCallId params signal onUpdate,
    external [EvExecute toolCallId params signal onUpdate]
             (f this toolCallId params signal onUpdate).

(** ** The two hook dispatchers *)

Record BeforeHookArgs : Type := {
  b_toolName : string;
  b_params : jsval;
  b_toolCallId : option string;
  b_ctx : option HookContext;
}.

Record AfterHookArgs : Type := {
  a_toolName : string;
  a_params : jsval;
  a_result : jsval;
  a_toolCallId : option string;
  a_ctx : option HookContext;
  a_durationMs : option Z;
}.

(** [{ toolName, agentId: args.ctx?.agentId, sessionKey: args.ctx?.sessionKey }] *)
Definition hook_context (toolName : string) (ctx : option HookContext)
    : ToolContext :=
  {| tc_toolName := toolName;
     tc_agentId := ctx ≫= agentId;
     tc_sessionKey := ctx ≫= sessionKey |}.

(** [hookResult?.block] as a condition. *)
Definition block_set (block : option bool) : bool :=
  match block with
  | Some true => true
  | _ => false
  end.

(** [args.toolCallId ? ` toolCallId=${args.toolCallId}` : ""] *)
Definition toolCallId_part (toolCallId : option string) : string :=
  match toolCallId with
  | Some id => if String.eqb id "" then "" else " toolCallId=" +:+ id
  | None => ""
  end.

(** The two warning texts, [error] being [String(err)]. *)
Definition before_warning (toolName : string) (toolCallId : option string)
    (error : string) : string :=
  "before_tool_call hook failed: tool=" +:+ toolName +:+
  toolCallId_part toolCallId +:+ " error=" +:+ error.

Definition after_warning (toolName : string) (toolCallId : option string)
    (error : string) : string :=
  "tool_result_received hook failed: tool=" +:+ toolName +:+
  toolCallId_part toolCallId +:+ " error=" +:+ error.

(** [String(err)] inside a template literal: the string, or the error
    the conversion throws. *)
Definition to_string (err : exn) : M string :=
  λ st, (String_of err, st).

(** Lines 19-65.  The [try] block yields [Some outcome] where the source
    returns from inside it and [None] where control falls through to the
    final [return]; what the [catch] block throws leaves the function. *)
Definition runBeforeToolCallHook (args : BeforeHookArgs) : M HookOutcome :=
  let! w := get_world in
  match getGlobalHookRunner w with
  | None => ret (Allowed (b_params args))
  | Some hookRunner =>
    let! registered := query (hasHooks hookRunner "before_tool_call") in
    if negb registered then ret (Allowed (b_params args)) else
    let toolName := normalizeToolName (str_or (b_toolName args) "tool") in
    let params := b_params args in
    let! returned :=
      try_catch
        (let normalizedParams :=
           if isPlainObject params then params else JObj ∅ in
         let event :=
           {| bev_toolName := toolName; bev_params := normalizedParams |} in
         let ctx := hook_context toolName (b_ctx args) in
         let! hookResult :=
           external [EvRunBeforeToolCall event ctx]
                    (runBeforeToolCall hookRunner event ctx) in
         if block_set (hookResult ≫= bres_block) then
           ret (Some (Blocked
                  (opt_str_or (hookResult ≫= bres_blockReason)
                              "Tool call blocked by plugin hook")))
         else
           let replacement := from_option bres_params JUndefined hookResult in
           if truthy replacement && isPlainObject replacement then
             if isPlainObject params then
               ret (Some (Allowed (spread2 params replacement)))
             else
               ret (Some (Allowed replacement))
           else ret None)
        (λ err,
           let! error := to_string err in
           warn (before_warning toolName (b_toolCallId args) error);;
           ret None) in
    match returned with
    | Some outcome => ret outcome
    | None => ret (Allowed params)
    end
  end.

(** Lines 67-115. *)
Definition runToolResultReceivedHook (args : AfterHookArgs) : M AfterOutcome :=
  let! w := get_world in
  match getGlobalHookRunner w with
  | None =>
    ret {| blocked := false; reason := None; result := a_result args |}
  | Some hookRunner =>
    let! registered := query (hasHooks hookRunner "tool_result_received") in
    if negb registered then
      ret {| blocked := false; reason := None; result := a_result args |}
    else
    let toolName := normalizeToolName (str_or (a_toolName args) "tool") in
    let! returned :=
      try_catch
        (let event :=
           {| rev_toolName := toolName;
              rev_params := a_params args;
              rev_result := a_result args;
              rev_durationMs := a_durationMs args |} in
         let ctx := hook_context toolName (a_ctx args) in
         let! hookResult :=
           external [EvRunToolResultReceived event ctx]
                    (runToolResultReceived hookRunner event ctx) in
         if block_set (hookResult ≫= rres_block) then
           ret (Some
             {| blocked := true;
                reason := Some (opt_str_or (hookResult ≫= rres_blockReason)
                                  "Tool result blocked by plugin hook");
                result := a_result args |})
         else
           let replacement := from_option rres_result JUndefined hookResult in
           if negb (is_undefined replacement) then
             ret (Some {| blocked := false; reason := None;
                          result := replacement |})
           else ret None)
        (λ err,
           let! error := to_string err in
           warn (after_warning toolName (a_toolCallId args) error);;
           ret None) in
    match returned with
    | Some outcome => ret outcome
    | None =>
      ret {| blocked := false; reason := None; result := a_result args |}
    end
  end.

(** ** The wrapper *)

(** [Date.now()] *)
Definition date_now : M Z := λ st, (Resolved (Date_now (world st)), st).

(** Lines 128-161: the [execute] of the wrapped tool, closed over the
    original [execute], [toolName] and [ctx].  It is an arrow function: it
    has no use for its receiver, and it calls the original [execute]
    detached, with no receiver (line 142). *)
Definition wrappedExecute (execute : Exec) (toolName : string)
    (ctx : option HookContext) : Exec :=
  λ _ toolCallId params signal onUpdate,
    let! beforeOutcome :=
      runBeforeToolCallHook
        {| b_toolName := toolName; b_params := params;
           b_toolCallId := Some toolCallId; b_ctx := ctx |} in
    match beforeOutcome with
    | Blocked reason => throw (JsError reason)
    | Allowed params' =>
      let! startTime := date_now in
      let! toolResult :=
        execute JUndefined toolCallId params' signal onUpdate in
      let! endTime := date_now in
      let durationMs := (endTime - startTime)%Z in
      let! afterOutcome :=
        runToolResultReceivedHook
          {| a_toolName := toolName; a_params := params';
             a_result := toolResult; a_toolCallId := Some toolCallId;
             a_ctx := ctx; a_durationMs := Some durationMs |} in
      if blocked afterOutcome then
        throw (JsError (default "" (reason afterOutcome)))
      else
        ret (result afterOutcome)
    end.

(** Lines 117-163.  The object literal [{...tool, execute}] has the own
    enumerable properties of [tool], with [execute] set or replaced, and
    inherits nothing from the prototype chain of [tool]. *)
Definition wrapToolWithBeforeToolCallHook (tool : Tool)
    (ctx : option HookContext) : Tool :=
  match execute tool with
  | None => tool
  | Some execute =>
    let toolName := str_or (tool_name tool) "tool" in
    {| own := {| data := data (own tool);
                 method_execute :=
                   Some (wrappedExecute execute toolName ctx) |};
       inherited := no_props |}
  end.

(** ** Vocabulary of the statements *)

(** No runner is installed in [w], or it reports no handler for the
    event [name] (and reporting leaves the world as it is). *)
Definition NoHandlers (name : string) (w : World) : Prop :=
  match getGlobalHookRunner w with
  | None => True
  | Some hookRunner => hasHooks hookRunner name w = (Resolved false, w)
  end.

(** Runner [hookRunner] is installed in [w] and reports handlers for the
    event [name], leaving the world as [w']. *)
Definition Registered (hookRunner : HookRunner World) (name : string)
    (w w' : World) : Prop :=
  getGlobalHookRunner w = Some hookRunner ∧
  hasHooks hookRunner name w = (Resolved true, w').

(** The normalized tool name, and the event and context objects the
    dispatchers hand to the runner for [args]. *)
Definition normalized_name (toolName : string) : string :=
  normalizeToolName (str_or toolName "tool").

Definition before_event (args : BeforeHookArgs) : BeforeToolCallEvent :=
  {| bev_toolName := normalized_name (b_toolName args);
     bev_params :=
       if isPlainObject (b_params args) then b_params args else JObj ∅ |}.

Definition before_ctx (args : BeforeHookArgs) : ToolContext :=
  hook_context (normalized_name (b_toolName args)) (b_ctx args).

Definition after_event (args : AfterHookArgs) : ToolResultReceivedEvent :=
  {| rev_toolName := normalized_name (a_toolName args);
     rev_params := a_params args;
     rev_result := a_result args;
     rev_durationMs := a_durationMs args |}.

Definition after_ctx (args : AfterHookArgs) : ToolContext :=
  hook_context (normalized_name (a_toolName args)) (a_ctx args).

(** The arguments the wrapped [execute] gives the two dispatchers. *)
Definition before_args (toolName : string) (ctx : option HookContext)
    (toolCallId : string) (params : jsval) : BeforeHookArgs :=
  {| b_toolName := toolName; b_params := params;
     b_toolCallId := Some toolCallId; b_ctx := ctx |}.

Definition after_args (toolName : string) (ctx : option HookContext)
    (toolCallId : string) (params toolResult : jsval) (durationMs : Z)
    : AfterHookArgs :=
  {| a_toolName := toolName; a_params := params; a_result := toolResult;
     a_toolCallId := Some toolCallId; a_ctx := ctx;
     a_durationMs := Some durationMs |}.

(** A caller's [tool.execute(toolCallId, params, signal, onUpdate)]:
    the method is called on the tool, which is its receiver; calling a
    missing [execute] is a [TypeError]. *)
Definition invoke (tool : Tool)
    : string → jsval → AbortSignal → UpdateCallback → M jsval :=
  λ toolCallId params signal onUpdate,
    match execute tool with
    | Some execute =>
      execute (receiver tool) toolCallId params signal onUpdate
    | None => throw (JsTypeError "tool.execute is not a function")
    end.

Definition is_execute (ev : Event) : bool :=
  match ev with
  | EvExecute _ _ _ _ => true
  | _ => false
  end.

(** The state after external code left the world as [w] and [evs] were
    listed. *)
Definition moved (st : State) (w : World) (evs : list Event) : State :=
  {| world := w; trace := trace st ++ evs |}.

End Hooks.

(** ** Concrete collaborators

    The world is a clock reading; a tool run takes some milliseconds. *)
Module Demo.

(** [String] on data values: integers print in decimal, an array joins
    its elements with commas ([null] and [undefined] elements print as
    nothing), an object prints as "[object Object]" unless it has a
    [toString] property of its own, which as data is not callable and
    makes the conversion throw. *)
Fixpoint value_string (v : jsval) : option string :=
  match v with
  | JUndefined => Some "undefined"
  | JNull => Some "null"
  | JBool b => Some (if b then "true" else "false")
  | JNum n => Some (NilZero.string_of_int (Z.to_int n))
  | JStr s => Some s
  | JArr items =>
    (fix join (l : list jsval) : option string :=
       match l with
       | [] => Some ""
       | x :: rest =>
         match (match x with
                | JUndefined | JNull => Some ""
                | _ => value_string x
                end), rest with
         | Some s, [] => Some s
         | Some s, _ :: _ =>
           match join rest with
           | Some r => Some (s +:+ "," +:+ r)
           | None => None
           end
         | None, _ => None
         end
       end) items
  | JObj props =>
    if bool_decide (is_Some (props !! "toString")) then None
    else Some "[object Object]"
  end.

Definition error_string (name message : string) : string :=
  if String.eqb message "" then name else name +:+ ": " +:+ message.

Definition string_of (err : exn) : completion string :=
  match err with
  | JsError message => Resolved (error_string "Error" message)
  | JsTypeError message => Resolved (error_string "TypeError" message)
  | JsThrow v =>
    match value_string v with
    | Some s => Resolved s
    | None => Rejected (JsTypeError "Cannot convert object to primitive value")
    end
  end.

(** A thrown object that [String] cannot convert. *)
Definition unprintable : exn := JsThrow (JObj {[ "toString" := JNum 1 ]}).

Definition env (runner : option (HookRunner Z)) : Collaborators :=
  {| World := Z;
     AbortSignal := unit;
     UpdateCallback := unit;
     getGlobalHookRunner := λ _, runner;
     normalizeToolName := λ name, name;
     Date_now := λ clock, clock;
     String_of := string_of |}.

(** A runner with handlers for [events] that all answer [before] and
    [after]. *)
Definition runner (events : list string)
    (before : completion (option BeforeToolCallResult))
    (after : completion (option ToolResultReceivedResult)) : HookRunner Z :=
  {| hasHooks := λ name clock, (Resolved (bool_decide (name ∈ events)), clock);
     runBeforeToolCall := λ _ _ clock, (before, clock);
     runToolResultReceived := λ _ _ clock, (after, clock) |}.

Definition both : list string := ["before_tool_call"; "tool_result_received"].

(** A runner whose registry query itself throws. *)
Definition broken_registry : HookRunner Z :=
  {| hasHooks := λ _ clock, (Rejected (JsError "registry unavailable"), clock);
     runBeforeToolCall := λ _ _ clock, (Resolved None, clock);
     runToolResultReceived := λ _ _ clock, (Resolved None, clock) |}.

(** A tool that echoes its params after five milliseconds. *)
Definition echo
    : jsval → string → jsval → unit → unit → Z → completion jsval * Z :=
  λ _ _ params _ _ clock, (Resolved params, (clock + 5)%Z).

(** A tool that fails. *)
Definition failing
    : jsval → string → jsval → unit → unit → Z → completion jsval * Z :=
  λ _ _ _ _ _ clock, (Rejected (JsError "disk full"), (clock + 1)%Z).

(** A tool whose [execute] answers [this.name]. *)
Definition whoami
    : jsval → string → jsval → unit → unit → Z → completion jsval * Z :=
  λ this _ _ _ _ clock,
    match this with
    | JObj props => (Resolved (default JUndefined (props !! "name")), clock)
    | _ =>
      (Rejected (JsTypeError
         "Cannot read properties of undefined (reading 'name')"), clock)
    end.

(** An object literal [{ name: "read", label: "Read", execute }]. *)
Definition tool (E : Collaborators) (ex : option (@Exec E)) : @Tool E :=
  {| own := {| data := <["name" := JStr "read"]> {[ "label" := JStr "Read" ]};
               method_execute := ex |};
     inherited := no_props |}.

(** An instance of a class that defines [name] and [execute] on its
    prototype and sets [label] in its constructor. *)
Definition instance (E : Collaborators) (ex : option (@Exec E)) : @Tool E :=
  {| own := {| data := {[ "label" := JStr "Read" ]};
               method_execute := None |};
     inherited := {| data := {[ "name" := JStr "read" ]};
                     method_execute := ex |} |}.

Definition start (E : Collaborators) (w : @World E) : @State E :=
  {| world := w; trace := [] |}.

(** The params of P3 in the specification: original [{a:1, b:2}],
    replacement [{b:3, c:4}], merged [{a:1, b:3, c:4}]. *)
Definition original_ab : gmap string jsval :=
  list_to_map [("a", JNum 1); ("b", JNum 2)].

Definition replacement_bc : gmap string jsval :=
  list_to_map [("b", JNum 3); ("c", JNum 4)].

Definition merged_abc : gmap string jsval :=
  list_to_map [("a", JNum 1); ("b", JNum 3); ("c", JNum 4)].

(** A runner whose before-call handler offers [{b:3, c:4}]. *)
Definition replacing : HookRunner Z :=
  runner both
    (Resolved (Some {| bres_block := None; bres_blockReason := None;
                       bres_params := JObj replacement_bc |}))
    (Resolved None).

(** A runner whose before-call handler takes a hundred milliseconds and
    returns no verdict. *)
Definition slow_before : HookRunner Z :=
  {| hasHooks := λ name clock, (Resolved (bool_decide (name ∈ both)), clock);
     runBeforeToolCall := λ _ _ clock, (Resolved None, (clock + 100)%Z);
     runToolResultReceived := λ _ _ clock, (Resolved None, clock) |}.

(** A runner whose before-call handler blocks with a reason. *)
Definition refusing : HookRunner Z :=
  runner both
    (Resolved (Some {| bres_block := Some true;
                       bres_blockReason := Some "not in this session";
                       bres_params := JUndefined |}))
    (Resolved None).

(** A runner whose before-call handler offers [replacement] as params. *)
Definition offering (replacement : jsval) : HookRunner Z :=
  runner both
    (Resolved (Some {| bres_block := None; bres_blockReason := None;
                       bres_params := replacement |}))
    (Resolved None).

(** A runner whose after-call handler replaces the result by [0]. *)
Definition zeroing : HookRunner Z :=
  runner both (Resolved None)
    (Resolved (Some {| rres_block := None; rres_blockReason := None;
                       rres_result := JNum 0 |})).

Definition session : HookContext :=
  {| agentId := Some "main"; sessionKey := Some "s-1" |}.

(** A tool without a name. *)
Definition nameless (E : Collaborators) (ex : option (@Exec E)) : @Tool E :=
  {| own := {| data := ∅; method_execute := ex |}; inherited := no_props |}.

End Demo.


(** * Properties *)

Section Properties.
Context `{Collaborators}.

Lemma str_or_nonempty (s d : string) : d ≠ "" → str_or s d ≠ "".
Proof.
  unfold str_or. intros Hd. destruct (String.eqb_spec s ""); congruence.
Qed.

(** *** The before-call dispatcher, case by case *)

Lemma before_no_handlers (args : BeforeHookArgs) (st : State) :
  NoHandlers "before_tool_call" (world st) →
  runBeforeToolCallHook args st = (Resolved (Allowed (b_params args)), st).
Proof.
  unfold NoHandlers, runBeforeToolCallHook, bind, get_world, query, ret.
  destruct (getGlobalHookRunner (world st)) as [r|]; [|done].
  intros ->. by destruct st.
Qed.

Lemma after_no_handlers (args : AfterHookArgs) (st : State) :
  NoHandlers "tool_result_received" (world st) →
  runToolResultReceivedHook args st =
  (Resolved {| blocked := false; reason := None; result := a_result args |}, st).
Proof.
  unfold NoHandlers, runToolResultReceivedHook, bind, get_world, query, ret.
  destruct (getGlobalHookRunner (world st)) as [r|]; [|done].
  intros ->. by destruct st.
Qed.

Ltac run_dispatcher Hreg Hrun :=
  destruct Hreg as [Hget Hhas];
  unfold before_event, before_ctx, after_event, after_ctx, normalized_name
    in *;
  unfold runBeforeToolCallHook, runToolResultReceivedHook, bind, get_world,
    query, external, try_catch, ret, warn, to_string, moved;
  rewrite Hget, Hhas; simpl; rewrite Hrun; simpl.

Lemma before_hasHooks_throws (args : BeforeHookArgs) (st : State)
    hookRunner err w1 :
  getGlobalHookRunner (world st) = Some hookRunner →
  hasHooks hookRunner "before_tool_call" (world st) = (Rejected err, w1) →
  runBeforeToolCallHook args st = (Rejected err, moved st w1 []).
Proof.
  intros Hget Hhas.
  unfold runBeforeToolCallHook, bind, get_world, query, moved.
  rewrite Hget, Hhas. simpl. by rewrite app_nil_r.
Qed.

Lemma before_blocked {args : BeforeHookArgs} {st : State}
    {hookRunner w1 verdict w2} :
  Registered hookRunner "before_tool_call" (world st) w1 →
  runBeforeToolCall hookRunner (before_event args) (before_ctx args) w1
    = (Resolved (Some verdict), w2) →
  bres_block verdict = Some true →
  runBeforeToolCallHook args st =
  (Resolved (Blocked (opt_str_or (bres_blockReason verdict)
                                 "Tool call blocked by plugin hook")),
   moved st w2 [EvRunBeforeToolCall (before_event args) (before_ctx args)]).
Proof.
  intros Hreg Hrun Hblock. run_dispatcher Hreg Hrun.
  by rewrite Hblock.
Qed.

Lemma before_replaced {args : BeforeHookArgs} {st : State}
    {hookRunner w1 verdict w2 replacement} :
  Registered hookRunner "before_tool_call" (world st) w1 →
  runBeforeToolCall hookRunner (before_event args) (before_ctx args) w1
    = (Resolved (Some verdict), w2) →
  bres_block verdict ≠ Some true →
  bres_params verdict = JObj replacement →
  runBeforeToolCallHook args st =
  (Resolved (Allowed (if isPlainObject (b_params args)
                      then JObj (replacement ∪ own_props (b_params args))
                      else JObj replacement)),
   moved st w2 [EvRunBeforeToolCall (before_event args) (before_ctx args)]).
Proof.
  intros Hreg Hrun Hblock Hparams. run_dispatcher Hreg Hrun.
  rewrite Hparams. simpl.
  destruct (bres_block verdict) as [[]|]; try done;
    by destruct (isPlainObject (b_params args)).
Qed.

Lemma before_untouched {args : BeforeHookArgs} {st : State}
    {hookRunner w1 hookResult w2} :
  Registered hookRunner "before_tool_call" (world st) w1 →
  runBeforeToolCall hookRunner (before_event args) (before_ctx args) w1
    = (Resolved hookResult, w2) →
  block_set (hookResult ≫= bres_block) = false →
  isPlainObject (from_option bres_params JUndefined hookResult) = false →
  runBeforeToolCallHook args st =
  (Resolved (Allowed (b_params args)),
   moved st w2 [EvRunBeforeToolCall (before_event args) (before_ctx args)]).
Proof.
  intros Hreg Hrun Hblock Hparams. run_dispatcher Hreg Hrun.
  rewrite Hblock, Hparams. by rewrite andb_false_r.
Qed.

Lemma before_failed {args : BeforeHookArgs} {st : State}
    {hookRunner w1 err w2 error} :
  Registered hookRunner "before_tool_call" (world st) w1 →
  runBeforeToolCall hookRunner (before_event args) (before_ctx args) w1
    = (Rejected err, w2) →
  String_of err = Resolved error →
  runBeforeToolCallHook args st =
  (Resolved (Allowed (b_params args)),
   moved st w2
     [EvRunBeforeToolCall (before_event args) (before_ctx args);
      EvWarn (before_warning (normalized_name (b_toolName args))
                             (b_toolCallId args) error)]).
Proof.
  intros Hreg Hrun Hstr. run_dispatcher Hreg Hrun. rewrite Hstr. simpl.
  by rewrite <- app_assoc.
Qed.

Lemma before_failed_unprintable {args : BeforeHookArgs} {st : State}
    {hookRunner w1 err w2 err'} :
  Registered hookRunner "before_tool_call" (world st) w1 →
  runBeforeToolCall hookRunner (before_event args) (before_ctx args) w1
    = (Rejected err, w2) →
  String_of err = Rejected err' →
  runBeforeToolCallHook args st =
  (Rejected err',
   moved st w2 [EvRunBeforeToolCall (before_event args) (before_ctx args)]).
Proof.
  intros Hreg Hrun Hstr. run_dispatcher Hreg Hrun. by rewrite Hstr.
Qed.

(** *** The after-call dispatcher, case by case *)

Lemma after_hasHooks_throws (args : AfterHookArgs) (st : State)
    hookRunner err w1 :
  getGlobalHookRunner (world st) = Some hookRunner →
  hasHooks hookRunner "tool_result_received" (world st) = (Rejected err, w1) →
  runToolResultReceivedHook args st = (Rejected err, moved st w1 []).
Proof.
  intros Hget Hhas.
  unfold runToolResultReceivedHook, bind, get_world, query, moved.
  rewrite Hget, Hhas. simpl. by rewrite app_nil_r.
Qed.

Lemma after_blocked {args : AfterHookArgs} {st : State}
    {hookRunner w1 verdict w2} :
  Registered hookRunner "tool_result_received" (world st) w1 →
  runToolResultReceived hookRunner (after_event args) (after_ctx args) w1
    = (Resolved (Some verdict), w2) →
  rres_block verdict = Some true →
  runToolResultReceivedHook args st =
  (Resolved {| blocked := true;
               reason := Some (opt_str_or (rres_blockReason verdict)
                                 "Tool result blocked by plugin hook");
               result := a_result args |},
   moved st w2 [EvRunToolResultReceived (after_event args) (after_ctx args)]).
Proof.
  intros Hreg Hrun Hblock. run_dispatcher Hreg Hrun.
  by rewrite Hblock.
Qed.

Lemma after_allowed {args : AfterHookArgs} {st : State}
    {hookRunner w1 hookResult w2} :
  Registered hookRunner "tool_result_received" (world st) w1 →
  runToolResultReceived hookRunner (after_event args) (after_ctx args) w1
    = (Resolved hookResult, w2) →
  block_set (hookResult ≫= rres_block) = false →
  runToolResultReceivedHook args st =
  (Resolved {| blocked := false; reason := None;
               result :=
                 if is_undefined
                      (from_option rres_result JUndefined hookResult)
                 then a_result args
                 else from_option rres_result JUndefined hookResult |},
   moved st w2 [EvRunToolResultReceived (after_event args) (after_ctx args)]).
Proof.
  intros Hreg Hrun Hblock. run_dispatcher Hreg Hrun.
  rewrite Hblock.
  by destruct (is_undefined _).
Qed.

Lemma after_failed {args : AfterHookArgs} {st : State}
    {hookRunner w1 err w2 error} :
  Registered hookRunner "tool_result_received" (world st) w1 →
  runToolResultReceived hookRunner (after_event args) (after_ctx args) w1
    = (Rejected err, w2) →
  String_of err = Resolved error →
  runToolResultReceivedHook args st =
  (Resolved {| blocked := false; reason := None; result := a_result args |},
   moved st w2
     [EvRunToolResultReceived (after_event args) (after_ctx args);
      EvWarn (after_warning (normalized_name (a_toolName args))
                            (a_toolCallId args) error)]).
Proof.
  intros Hreg Hrun Hstr. run_dispatcher Hreg Hrun. rewrite Hstr. simpl.
  by rewrite <- app_assoc.
Qed.

Lemma after_failed_unprintable {args : AfterHookArgs} {st : State}
    {hookRunner w1 err w2 err'} :
  Registered hookRunner "tool_result_received" (world st) w1 →
  runToolResultReceived hookRunner (after_event args) (after_ctx args) w1
    = (Rejected err, w2) →
  String_of err = Rejected err' →
  runToolResultReceivedHook args st =
  (Rejected err',
   moved st w2
     [EvRunToolResultReceived (after_event args) (after_ctx args)]).
Proof.
  intros Hreg Hrun Hstr. run_dispatcher Hreg Hrun. by rewrite Hstr.
Qed.

(** *** The wrapped [execute], stage by stage *)

Section Wrapped.
Context {ex : Exec} {toolName : string} {ctx : option HookContext}.
Context {this : jsval} {toolCallId : string} {params : jsval}.
Context {signal : AbortSignal} {onUpdate : UpdateCallback}.

Lemma wrapped_before_rejects {st st1 : State} {err} :
  runBeforeToolCallHook (before_args toolName ctx toolCallId params) st
    = (Rejected err, st1) →
  wrappedExecute ex toolName ctx this toolCallId params signal onUpdate st
    = (Rejected err, st1).
Proof.
  intros Hb. unfold wrappedExecute, bind.
  fold (before_args toolName ctx toolCallId params). by rewrite Hb.
Qed.

Lemma wrapped_before_blocks {st st1 : State} {why} :
  runBeforeToolCallHook (before_args toolName ctx toolCallId params) st
    = (Resolved (Blocked why), st1) →
  wrappedExecute ex toolName ctx this toolCallId params signal onUpdate st
    = (Rejected (JsError why), st1).
Proof.
  intros Hb. unfold wrappedExecute, bind.
  fold (before_args toolName ctx toolCallId params). by rewrite Hb.
Qed.

Lemma wrapped_tool_rejects {st st1 st2 : State} {params' err} :
  runBeforeToolCallHook (before_args toolName ctx toolCallId params) st
    = (Resolved (Allowed params'), st1) →
  ex JUndefined toolCallId params' signal onUpdate st1 = (Rejected err, st2) →
  wrappedExecute ex toolName ctx this toolCallId params signal onUpdate st
    = (Rejected err, st2).
Proof.
  intros Hb Hex. unfold wrappedExecute, bind, date_now.
  fold (before_args toolName ctx toolCallId params). by rewrite Hb, Hex.
Qed.

Lemma wrapped_tool_resolves {st st1 st2 : State} {params' toolResult} :
  runBeforeToolCallHook (before_args toolName ctx toolCallId params) st
    = (Resolved (Allowed params'), st1) →
  ex JUndefined toolCallId params' signal onUpdate st1
    = (Resolved toolResult, st2) →
  wrappedExecute ex toolName ctx this toolCallId params signal onUpdate st
    = match runToolResultReceivedHook
              (after_args toolName ctx toolCallId params' toolResult
                 (Date_now (world st2) - Date_now (world st1))) st2 with
      | (Resolved afterOutcome, st3) =>
        (if blocked afterOutcome
         then Rejected (JsError (default "" (reason afterOutcome)))
         else Resolved (result afterOutcome), st3)
      | (Rejected err, st3) => (Rejected err, st3)
      end.
Proof.
  intros Hb Hex. unfold wrappedExecute, bind, date_now.
  fold (before_args toolName ctx toolCallId params). rewrite Hb, Hex.
  unfold after_args.
  destruct (runToolResultReceivedHook _ st2) as [[afterOutcome|err] st3];
    [|done].
  by destruct (blocked afterOutcome).
Qed.

End Wrapped.

Lemma execute_wrapped (T : Tool) ex ctx :
  execute T = Some ex →
  execute (wrapToolWithBeforeToolCallHook T ctx)
    = Some (wrappedExecute ex (str_or (tool_name T) "tool") ctx).
Proof. intros Hex. unfold wrapToolWithBeforeToolCallHook. by rewrite Hex. Qed.

Lemma invoke_wrapped (T : Tool) ex ctx :
  execute T = Some ex →
  invoke (wrapToolWithBeforeToolCallHook T ctx)
    = wrappedExecute ex (str_or (tool_name T) "tool") ctx
        (receiver (wrapToolWithBeforeToolCallHook T ctx)).
Proof. intros Hex. unfold invoke. by rewrite (execute_wrapped _ _ _ Hex). Qed.

Lemma external_tool_run f this toolCallId params signal onUpdate (st : State) :
  external_tool f this toolCallId params signal onUpdate st =
  (fst (f this toolCallId params signal onUpdate (world st)),
   moved st (snd (f this toolCallId params signal onUpdate (world st)))
         [EvExecute toolCallId params signal onUpdate]).
Proof.
  unfold external_tool, external, moved. by destruct (f _ _ _ _ _ _).
Qed.

(** *** What a call lists on the trace *)

Lemma after_trace (args : AfterHookArgs) (st : State) :
  ∃ evs, trace (snd (runToolResultReceivedHook args st)) = trace st ++ evs
         ∧ Forall (λ ev, is_execute ev = false) evs.
Proof.
  unfold runToolResultReceivedHook, bind, get_world, query, external,
    try_catch, ret, warn, to_string.
  destruct (getGlobalHookRunner (world st)) as [r|]; simpl;
    [|exists []; by rewrite app_nil_r].
  destruct (hasHooks r _ _) as [[[]|err] w1]; simpl;
    try (exists []; by rewrite app_nil_r).
  destruct (runToolResultReceived r _ _ _) as [[hookResult|err] w2]; simpl.
  - eexists. split.
    + destruct (block_set _); [reflexivity|].
      destruct (is_undefined _); reflexivity.
    + by repeat constructor.
  - destruct (String_of err) as [error|err']; simpl.
    + eexists. split; [rewrite <- app_assoc; reflexivity|].
      by repeat constructor.
    + eexists. split; [reflexivity|by repeat constructor].
Qed.

(** Once the before-call dispatcher allows [params'], a tool that is
    external code is executed once, on [params']. *)
Lemma wrapped_executes_once f toolName ctx this toolCallId params
    signal onUpdate (st st1 : State) params' :
  runBeforeToolCallHook (before_args toolName ctx toolCallId params) st
    = (Resolved (Allowed params'), st1) →
  ∃ evs,
    trace (snd (wrappedExecute (external_tool f) toolName ctx this
                  toolCallId params signal onUpdate st))
    = trace st1 ++ EvExecute toolCallId params' signal onUpdate :: evs
    ∧ Forall (λ ev, is_execute ev = false) evs.
Proof.
  intros Hb.
  destruct (external_tool f JUndefined toolCallId params' signal onUpdate st1)
    as [[toolResult|err] st2] eqn:Hrun.
  - rewrite (wrapped_tool_resolves Hb Hrun).
    destruct (after_trace
      (after_args toolName ctx toolCallId params' toolResult
         (Date_now (world st2) - Date_now (world st1))) st2)
      as (evs & Htr & Hevs).
    exists evs. split; [|done].
    assert (Hst2 : trace st2
                   = trace st1 ++ [EvExecute toolCallId params' signal onUpdate]).
    { unfold external_tool, external in Hrun.
      destruct (f _ _ _ _ _ _). by inversion Hrun. }
    destruct (runToolResultReceivedHook _ st2) as [[ao|e] st3]; simpl in *;
      rewrite Htr, Hst2; by rewrite <- app_assoc.
  - rewrite (wrapped_tool_rejects Hb Hrun).
    exists []. split; [|done]. simpl.
    unfold external_tool, external in Hrun.
    destruct (f _ _ _ _ _ _). by inversion Hrun.
Qed.

(** ** C1: pass-through when no hooks are registered *)

(** With no handlers at either consultation of the registry, the wrapper
    around [ex] settles as [ex] does when called without a receiver. *)
Lemma wrapped_passthrough (ex : Exec) toolName ctx this toolCallId params
    signal onUpdate (st : State) :
  NoHandlers "before_tool_call" (world st) →
  (∀ toolResult st2,
     ex JUndefined toolCallId params signal onUpdate st
       = (Resolved toolResult, st2) →
     NoHandlers "tool_result_received" (world st2)) →
  wrappedExecute ex toolName ctx this toolCallId params signal onUpdate st
  = ex JUndefined toolCallId params signal onUpdate st.
Proof.
  intros Hbefore Hafter.
  pose proof (before_no_handlers
    (before_args toolName ctx toolCallId params) st Hbefore) as Hb.
  destruct (ex JUndefined toolCallId params signal onUpdate st)
    as [[toolResult|err] st2] eqn:Hrun.
  - rewrite (wrapped_tool_resolves Hb Hrun).
    by rewrite (after_no_handlers _ _ (Hafter _ _ eq_refl)).
  - by rewrite (wrapped_tool_rejects Hb Hrun).
Qed.

(** C1 (as the code has it). Let [T] have an [execute], and let no hook
    runner be installed, or the installed one report no handler, each
    time the registry is consulted: for [before_tool_call] when the call
    starts, for [tool_result_received] once the tool has resolved.  Then
    invoking the wrapped tool is calling [T]'s [execute] detached from
    [T], with no receiver, on exactly the original call id, params,
    signal and progress callback, from the same state: the wrapped call
    settles as that run does (same result or same rejection, same final
    state).  It is the direct invocation of [T] whenever [execute] does
    the same detached as it does called on [T].  For a tool that is
    external code this is one execution, with the original params. *)
Theorem C1_passthrough_without_hooks (T : Tool) (ex : Exec)
    (ctx : option HookContext) (toolCallId : string) (params : jsval)
    (signal : AbortSignal) (onUpdate : UpdateCallback) (st : State)
    (Hex : execute T = Some ex)
    (Hbefore : NoHandlers "before_tool_call" (world st))
    (Hafter : ∀ toolResult st2,
       ex JUndefined toolCallId params signal onUpdate st
         = (Resolved toolResult, st2) →
       NoHandlers "tool_result_received" (world st2)) :
  invoke (wrapToolWithBeforeToolCallHook T ctx)
         toolCallId params signal onUpdate st
    = ex JUndefined toolCallId params signal onUpdate st
  ∧ (ex (receiver T) toolCallId params signal onUpdate st
       = ex JUndefined toolCallId params signal onUpdate st →
     invoke (wrapToolWithBeforeToolCallHook T ctx)
            toolCallId params signal onUpdate st
     = invoke T toolCallId params signal onUpdate st)
  ∧ (∀ f, ex = external_tool f →
       invoke (wrapToolWithBeforeToolCallHook T ctx)
              toolCallId params signal onUpdate st
       = (fst (f JUndefined toolCallId params signal onUpdate (world st)),
          moved st
            (snd (f JUndefined toolCallId params signal onUpdate (world st)))
            [EvExecute toolCallId params signal onUpdate])).
Proof.
  assert (Heq : invoke (wrapToolWithBeforeToolCallHook T ctx)
                  toolCallId params signal onUpdate st
                = ex JUndefined toolCallId params signal onUpdate st).
  { rewrite (invoke_wrapped _ _ _ Hex).
    by apply wrapped_passthrough. }
  split; [exact Heq|]. split.
  - intros Hsame. rewrite Heq. unfold invoke. by rewrite Hex.
  - intros f ->. rewrite Heq. apply external_tool_run.
Qed.

(** ** C2: a failing hook run is not fatal *)

(** C2 (as the code has it). When the runner reports handlers and its
    [runBeforeToolCall] fails (throws or rejects) with an error that
    [String] can convert, [runBeforeToolCallHook] does not fail: it logs
    one warning, naming the tool, the call id and the error, and returns
    Allowed with the original params, which is what it returns when the
    run resolves to no verdict; the wrapped tool then executes with the
    original params.  Likewise, and independently, when
    [runToolResultReceived] fails with such an error,
    [runToolResultReceivedHook] logs one warning and returns
    [blocked: false] with the original result, as it does for no
    verdict, and the wrapped call resolves with that result.
    Two failures are not caught.  A failing [hasHooks] is queried before
    the [try] block, so the dispatcher rejects with that error and logs
    nothing.  And when [String(err)] itself throws inside the [catch]
    block, the dispatcher rejects with what it throws, after the
    dispatch and without a warning. *)
Theorem C2_hook_run_failure_is_not_fatal :
  (* a failing before-call run *)
  (∀ (args : BeforeHookArgs) (st : State) hookRunner w1 w2 err error,
     Registered hookRunner "before_tool_call" (world st) w1 →
     runBeforeToolCall hookRunner (before_event args) (before_ctx args) w1
       = (Rejected err, w2) →
     String_of err = Resolved error →
     let st' :=
       moved st w2
         [EvRunBeforeToolCall (before_event args) (before_ctx args);
          EvWarn ("before_tool_call hook failed: tool=" +:+
                  normalized_name (b_toolName args) +:+
                  toolCallId_part (b_toolCallId args) +:+
                  " error=" +:+ error)] in
     runBeforeToolCallHook args st = (Resolved (Allowed (b_params args)), st')
     ∧ (∀ (st0 : State) r v1 v2,
          Registered r "before_tool_call" (world st0) v1 →
          runBeforeToolCall r (before_event args) (before_ctx args) v1
            = (Resolved None, v2) →
          fst (runBeforeToolCallHook args st0)
          = fst (runBeforeToolCallHook args st))
     ∧ (∀ (T : Tool) f ctx toolCallId signal onUpdate,
          execute T = Some (external_tool f) →
          args = before_args (str_or (tool_name T) "tool") ctx toolCallId
                             (b_params args) →
          ∃ evs,
            trace (snd (invoke (wrapToolWithBeforeToolCallHook T ctx)
                          toolCallId (b_params args) signal onUpdate st))
            = trace st' ++ EvExecute toolCallId (b_params args) signal onUpdate
                           :: evs
            ∧ Forall (λ ev, is_execute ev = false) evs))
  (* a failing after-call run *)
  ∧ (∀ (args : AfterHookArgs) (st : State) hookRunner w1 w2 err error,
       Registered hookRunner "tool_result_received" (world st) w1 →
       runToolResultReceived hookRunner (after_event args) (after_ctx args) w1
         = (Rejected err, w2) →
       String_of err = Resolved error →
       let st' :=
         moved st w2
           [EvRunToolResultReceived (after_event args) (after_ctx args);
            EvWarn ("tool_result_received hook failed: tool=" +:+
                    normalized_name (a_toolName args) +:+
                    toolCallId_part (a_toolCallId args) +:+
                    " error=" +:+ error)] in
       runToolResultReceivedHook args st =
         (Resolved {| blocked := false; reason := None;
                      result := a_result args |}, st')
       ∧ (∀ (st0 : State) r v1 v2,
            Registered r "tool_result_received" (world st0) v1 →
            runToolResultReceived r (after_event args) (after_ctx args) v1
              = (Resolved None, v2) →
            fst (runToolResultReceivedHook args st0)
            = fst (runToolResultReceivedHook args st))
       ∧ (∀ (T : Tool) ex ctx toolCallId params params' signal onUpdate
            st0 st1,
            execute T = Some ex →
            runBeforeToolCallHook
              (before_args (str_or (tool_name T) "tool") ctx toolCallId params)
              st0
              = (Resolved (Allowed params'), st1) →
            ex JUndefined toolCallId params' signal onUpdate st1
              = (Resolved (a_result args), st) →
            args = after_args (str_or (tool_name T) "tool") ctx toolCallId
                     params' (a_result args)
                     (Date_now (world st) - Date_now (world st1)) →
            invoke (wrapToolWithBeforeToolCallHook T ctx)
                   toolCallId params signal onUpdate st0
            = (Resolved (a_result args), st')))
  (* a failing registry query *)
  ∧ (∀ (args : BeforeHookArgs) (st : State) r err w1,
       getGlobalHookRunner (world st) = Some r →
       hasHooks r "before_tool_call" (world st) = (Rejected err, w1) →
       runBeforeToolCallHook args st = (Rejected err, moved st w1 []))
  ∧ (∀ (args : AfterHookArgs) (st : State) r err w1,
       getGlobalHookRunner (world st) = Some r →
       hasHooks r "tool_result_received" (world st) = (Rejected err, w1) →
       runToolResultReceivedHook args st = (Rejected err, moved st w1 []))
  (* a caught error that String cannot convert *)
  ∧ (∀ (args : BeforeHookArgs) (st : State) hookRunner w1 w2 err err',
       Registered hookRunner "before_tool_call" (world st) w1 →
       runBeforeToolCall hookRunner (before_event args) (before_ctx args) w1
         = (Rejected err, w2) →
       String_of err = Rejected err' →
       runBeforeToolCallHook args st =
         (Rejected err',
          moved st w2
            [EvRunBeforeToolCall (before_event args) (before_ctx args)]))
  ∧ (∀ (args : AfterHookArgs) (st : State) hookRunner w1 w2 err err',
       Registered hookRunner "tool_result_received" (world st) w1 →
       runToolResultReceived hookRunner (after_event args) (after_ctx args) w1
         = (Rejected err, w2) →
       String_of err = Rejected err' →
       runToolResultReceivedHook args st =
         (Rejected err',
          moved st w2
            [EvRunToolResultReceived (after_event args) (after_ctx args)])).
Proof.
  split; [|split; [|split; [|split; [|split]]]].
  - intros args st r w1 w2 err error Hreg Hfail Hstr st'.
    pose proof (before_failed Hreg Hfail Hstr) as Hb. fold st' in Hb.
    split; [exact Hb|]. split.
    + intros st0 r0 v1 v2 Hreg0 Hrun0. rewrite Hb.
      by rewrite (before_untouched Hreg0 Hrun0 eq_refl eq_refl).
    + intros T f ctx toolCallId signal onUpdate Hex Hargs.
      rewrite (invoke_wrapped _ _ _ Hex).
      apply wrapped_executes_once. by rewrite <- Hargs.
  - intros args st r w1 w2 err error Hreg Hfail Hstr st'.
    pose proof (after_failed Hreg Hfail Hstr) as Ha. fold st' in Ha.
    split; [exact Ha|]. split.
    + intros st0 r0 v1 v2 Hreg0 Hrun0. rewrite Ha.
      by rewrite (after_allowed Hreg0 Hrun0 eq_refl).
    + intros T ex ctx toolCallId params params' signal onUpdate st0 st1
        Hex Hbefore Htool Hargs.
      rewrite (invoke_wrapped _ _ _ Hex).
      rewrite (wrapped_tool_resolves Hbefore Htool).
      by rewrite <- Hargs, Ha.
  - intros. by eapply before_hasHooks_throws.
  - intros. by eapply after_hasHooks_throws.
  - intros args st r w1 w2 err err' Hreg Hfail Hstr.
    exact (before_failed_unprintable Hreg Hfail Hstr).
  - intros args st r w1 w2 err err' Hreg Hfail Hstr.
    exact (after_failed_unprintable Hreg Hfail Hstr).
Qed.

(** ** C3: a before-call block stops the call *)

(** C3 (as the code has it). When the before-call verdict has [block]
    set, the wrapped call rejects with an [Error] whose message is the
    handler's [blockReason] when that is a non-empty string, and "Tool call
    blocked by plugin hook" when [blockReason] is absent or the empty
    string; the tool's [execute] is not run: whatever [execute] the tool
    has, the call ends in the state the hook dispatch left, whose trace
    gained the dispatch and no execution. *)
Theorem C3_before_block_short_circuits (T : Tool) (ex : Exec)
    (ctx : option HookContext) (toolCallId : string) (params : jsval)
    (signal : AbortSignal) (onUpdate : UpdateCallback) (st : State)
    (hookRunner : HookRunner World) (w1 w2 : World)
    (verdict : BeforeToolCallResult)
    (Hex : execute T = Some ex)
    (Hreg : Registered hookRunner "before_tool_call" (world st) w1)
    (Hrun : let args := before_args (str_or (tool_name T) "tool") ctx
                                    toolCallId params in
            runBeforeToolCall hookRunner (before_event args) (before_ctx args) w1
            = (Resolved (Some verdict), w2))
    (Hblock : bres_block verdict = Some true) :
  let args := before_args (str_or (tool_name T) "tool") ctx toolCallId params in
  ∃ message,
    invoke (wrapToolWithBeforeToolCallHook T ctx)
           toolCallId params signal onUpdate st
      = (Rejected (JsError message),
         moved st w2 [EvRunBeforeToolCall (before_event args) (before_ctx args)])
    ∧ (∀ supplied, bres_blockReason verdict = Some supplied →
         supplied ≠ "" → message = supplied)
    ∧ (bres_blockReason verdict = None ∨ bres_blockReason verdict = Some "" →
         message = "Tool call blocked by plugin hook").
Proof.
  simpl in *.
  eexists. rewrite (invoke_wrapped _ _ _ Hex).
  split; [|split].
  - apply wrapped_before_blocks.
    exact (before_blocked Hreg Hrun Hblock).
  - intros supplied -> Hne. simpl. unfold str_or.
    by destruct (String.eqb_spec supplied "").
  - by intros [-> | ->].
Qed.

(** ** C4: replacement params are merged over the original ones *)

(** C4. When a verdict that does not block supplies replacement params
    that are a plain mapping, [runBeforeToolCallHook] returns Allowed
    with a mapping: if the original params are a plain mapping too, it
    has exactly the keys of both, every replacement key with the
    replacement value and every other original key with its original
    value; if the original params are no plain mapping, it is the
    replacement itself.  That mapping is what the wrapped tool then
    executes with, once. *)
Theorem C4_replacement_params_merge (args : BeforeHookArgs) (st : State)
    (hookRunner : HookRunner World) (w1 w2 : World)
    (verdict : BeforeToolCallResult) (replacement : gmap string jsval)
    (Hreg : Registered hookRunner "before_tool_call" (world st) w1)
    (Hrun : runBeforeToolCall hookRunner (before_event args) (before_ctx args) w1
            = (Resolved (Some verdict), w2))
    (Hallow : bres_block verdict ≠ Some true)
    (Hrep : bres_params verdict = JObj replacement) :
  let st1 :=
    moved st w2 [EvRunBeforeToolCall (before_event args) (before_ctx args)] in
  ∃ chosen : gmap string jsval,
    runBeforeToolCallHook args st = (Resolved (Allowed (JObj chosen)), st1)
    ∧ (∀ original : gmap string jsval, b_params args = JObj original →
         dom chosen = dom original ∪ dom replacement
         ∧ (∀ key value, replacement !! key = Some value →
              chosen !! key = Some value)
         ∧ (∀ key, replacement !! key = None →
              chosen !! key = original !! key))
    ∧ (isPlainObject (b_params args) = false → chosen = replacement)
    ∧ (∀ (T : Tool) f ctx toolCallId signal onUpdate,
         execute T = Some (external_tool f) →
         args = before_args (str_or (tool_name T) "tool") ctx toolCallId
                            (b_params args) →
         ∃ evs,
           trace (snd (invoke (wrapToolWithBeforeToolCallHook T ctx)
                         toolCallId (b_params args) signal onUpdate st))
           = trace st1 ++ EvExecute toolCallId (JObj chosen) signal onUpdate :: evs
           ∧ Forall (λ ev, is_execute ev = false) evs).
Proof.
  intros st1.
  pose proof (before_replaced Hreg Hrun Hallow Hrep) as Hb.
  fold st1 in Hb.
  exists (if isPlainObject (b_params args)
          then replacement ∪ own_props (b_params args) else replacement).
  assert (Hb' : runBeforeToolCallHook args st =
    (Resolved (Allowed (JObj (if isPlainObject (b_params args)
       then replacement ∪ own_props (b_params args) else replacement))), st1)).
  { rewrite Hb. by destruct (isPlainObject (b_params args)). }
  split; [done|]. split; [|split].
  - intros original Horig. rewrite Horig. simpl.
    split; [|split].
    + rewrite dom_union_L. apply union_comm_L.
    + intros key value Hkey. by apply lookup_union_Some_l.
    + intros key Hkey. by apply lookup_union_r.
  - by intros ->.
  - intros T f ctx toolCallId signal onUpdate Hex Hargs.
    rewrite (invoke_wrapped _ _ _ Hex).
    apply wrapped_executes_once. by rewrite <- Hargs.
Qed.

(** ** C5: params that are no mapping reach the tool untouched *)

(** C5. When the original params are no plain mapping and handlers are
    registered, the event handed to the runner carries the empty mapping
    as its params.  If the verdict then neither blocks nor supplies a
    plain-mapping replacement, [runBeforeToolCallHook] returns Allowed
    with the original params, and the wrapped tool executes with that
    original value, once. *)
Theorem C5_non_mapping_params_untouched (args : BeforeHookArgs) (st : State)
    (hookRunner : HookRunner World) (w1 w2 : World)
    (hookResult : option BeforeToolCallResult)
    (Hshape : isPlainObject (b_params args) = false)
    (Hreg : Registered hookRunner "before_tool_call" (world st) w1)
    (Hrun : runBeforeToolCall hookRunner
              {| bev_toolName := normalized_name (b_toolName args);
                 bev_params := JObj ∅ |}
              (before_ctx args) w1
            = (Resolved hookResult, w2))
    (Hallow : block_set (hookResult ≫= bres_block) = false)
    (Hnone : isPlainObject (from_option bres_params JUndefined hookResult)
             = false) :
  let st1 :=
    moved st w2
      [EvRunBeforeToolCall
         {| bev_toolName := normalized_name (b_toolName args);
            bev_params := JObj ∅ |}
         (before_ctx args)] in
  runBeforeToolCallHook args st = (Resolved (Allowed (b_params args)), st1)
  ∧ (∀ (T : Tool) f ctx toolCallId signal onUpdate,
       execute T = Some (external_tool f) →
       args = before_args (str_or (tool_name T) "tool") ctx toolCallId
                          (b_params args) →
       ∃ evs,
         trace (snd (invoke (wrapToolWithBeforeToolCallHook T ctx)
                       toolCallId (b_params args) signal onUpdate st))
         = trace st1 ++ EvExecute toolCallId (b_params args) signal onUpdate :: evs
         ∧ Forall (λ ev, is_execute ev = false) evs).
Proof.
  intros st1.
  assert (Hev : before_event args =
                {| bev_toolName := normalized_name (b_toolName args);
                   bev_params := JObj ∅ |}).
  { unfold before_event. by rewrite Hshape. }
  rewrite <- Hev in Hrun.
  pose proof (before_untouched Hreg Hrun Hallow Hnone) as Hb.
  rewrite Hev in Hb. fold st1 in Hb.
  split; [done|].
  intros T f ctx toolCallId signal onUpdate Hex Hargs.
  rewrite (invoke_wrapped _ _ _ Hex).
  apply wrapped_executes_once. by rewrite <- Hargs.
Qed.

(** ** C6: an after-call block discards the result *)

(** C6 (as the code has it). When the before-call dispatcher allowed the
    call and the tool resolved, but the after-call verdict has [block]
    set, then [runToolResultReceivedHook] returns [blocked: true] with the
    original result and the reason, and the wrapped call does not resolve
    to any result: it rejects with an [Error] whose message is the
    handler's [blockReason] when that is a non-empty string, and "Tool
    result blocked by plugin hook" when [blockReason] is absent or the
    empty string. *)
Theorem C6_after_block_discards_result (T : Tool) (ex : Exec)
    (ctx : option HookContext) (toolCallId : string) (params params' : jsval)
    (signal : AbortSignal) (onUpdate : UpdateCallback) (st st1 st2 : State)
    (toolResult : jsval) (hookRunner : HookRunner World) (w3 w4 : World)
    (verdict : ToolResultReceivedResult)
    (Hex : execute T = Some ex)
    (Hbefore : runBeforeToolCallHook
                 (before_args (str_or (tool_name T) "tool") ctx toolCallId params)
                 st
               = (Resolved (Allowed params'), st1))
    (Htool : ex JUndefined toolCallId params' signal onUpdate st1
             = (Resolved toolResult, st2))
    (Hreg : Registered hookRunner "tool_result_received" (world st2) w3)
    (Hrun : let args := after_args (str_or (tool_name T) "tool") ctx toolCallId
                          params' toolResult
                          (Date_now (world st2) - Date_now (world st1)) in
            runToolResultReceived hookRunner (after_event args) (after_ctx args) w3
            = (Resolved (Some verdict), w4))
    (Hblock : rres_block verdict = Some true) :
  let args := after_args (str_or (tool_name T) "tool") ctx toolCallId
                params' toolResult
                (Date_now (world st2) - Date_now (world st1)) in
  let st3 :=
    moved st2 w4
      [EvRunToolResultReceived (after_event args) (after_ctx args)] in
  ∃ message,
    runToolResultReceivedHook args st2
      = (Resolved {| blocked := true; reason := Some message;
                     result := toolResult |}, st3)
    ∧ invoke (wrapToolWithBeforeToolCallHook T ctx)
             toolCallId params signal onUpdate st
      = (Rejected (JsError message), st3)
    ∧ (∀ supplied, rres_blockReason verdict = Some supplied →
         supplied ≠ "" → message = supplied)
    ∧ (rres_blockReason verdict = None ∨ rres_blockReason verdict = Some "" →
         message = "Tool result blocked by plugin hook").
Proof.
  simpl in *.
  pose proof (after_blocked Hreg Hrun Hblock) as Ha.
  eexists. split; [exact Ha|]. split; [|split].
  - rewrite (invoke_wrapped _ _ _ Hex).
    rewrite (wrapped_tool_resolves Hbefore Htool).
    by rewrite Ha.
  - intros supplied -> Hne. simpl. unfold str_or.
    by destruct (String.eqb_spec supplied "").
  - by intros [-> | ->].
Qed.

(** ** C7: a defined replacement result is used verbatim *)

(** C7. When the after-call verdict does not block,
    [runToolResultReceivedHook] returns the verdict's replacement result
    itself whenever it is not [undefined] (so also for [0], the empty
    string, [false] and [null], and with no merging into the original),
    and the original result when the replacement is [undefined] or no
    verdict came back; the wrapped call resolves with that value. *)
Theorem C7_replacement_result_verbatim (args : AfterHookArgs) (st : State)
    (hookRunner : HookRunner World) (w1 w2 : World)
    (hookResult : option ToolResultReceivedResult)
    (Hreg : Registered hookRunner "tool_result_received" (world st) w1)
    (Hrun : runToolResultReceived hookRunner (after_event args) (after_ctx args) w1
            = (Resolved hookResult, w2))
    (Hallow : block_set (hookResult ≫= rres_block) = false) :
  let replacement := from_option rres_result JUndefined hookResult in
  let st' :=
    moved st w2
      [EvRunToolResultReceived (after_event args) (after_ctx args)] in
  ∃ chosen,
    runToolResultReceivedHook args st
      = (Resolved {| blocked := false; reason := None; result := chosen |}, st')
    ∧ (replacement ≠ JUndefined → chosen = replacement)
    ∧ (replacement ∈ [JNum 0; JStr ""; JBool false; JNull] →
         chosen = replacement)
    ∧ (replacement = JUndefined → chosen = a_result args)
    ∧ (∀ (T : Tool) ex ctx toolCallId params params' signal onUpdate st0 st1,
         execute T = Some ex →
         runBeforeToolCallHook
           (before_args (str_or (tool_name T) "tool") ctx toolCallId params) st0
           = (Resolved (Allowed params'), st1) →
         ex JUndefined toolCallId params' signal onUpdate st1
           = (Resolved (a_result args), st) →
         args = after_args (str_or (tool_name T) "tool") ctx toolCallId
                  params' (a_result args)
                  (Date_now (world st) - Date_now (world st1)) →
         invoke (wrapToolWithBeforeToolCallHook T ctx)
                toolCallId params signal onUpdate st0
         = (Resolved chosen, st')).
Proof.
  cbv zeta.
  pose proof (after_allowed Hreg Hrun Hallow) as Ha.
  set (replacement := from_option rres_result JUndefined hookResult) in *.
  clearbody replacement.
  eexists. split; [exact Ha|].
  assert (Hdef : replacement ≠ JUndefined →
                 (if is_undefined replacement then a_result args
                  else replacement) = replacement).
  { by destruct replacement. }
  split; [exact Hdef|]. split; [|split].
  - intros Hin. apply Hdef. intros Hu. rewrite Hu in Hin.
    repeat (apply elem_of_cons in Hin as [Hin|Hin]; [discriminate|]).
    by apply elem_of_nil in Hin.
  - by intros ->.
  - intros T ex ctx toolCallId params params' signal onUpdate st0 st1
      Hex Hbefore Htool Hargs.
    rewrite (invoke_wrapped _ _ _ Hex).
    rewrite (wrapped_tool_resolves Hbefore Htool).
    by rewrite <- Hargs, Ha.
Qed.

(** ** C8: a failure of the tool itself propagates *)

(** C8. When the before-call dispatcher allowed the call and the tool's
    [execute] rejects (or throws), the wrapped call rejects with the very
    same error, in the very state in which the tool failed: nothing runs
    after the failure, neither a second attempt nor the after-call
    dispatcher.  For a tool that is external code, its one execution is
    the last entry of the trace. *)
Theorem C8_tool_failure_propagates (T : Tool) (ex : Exec)
    (ctx : option HookContext) (toolCallId : string) (params params' : jsval)
    (signal : AbortSignal) (onUpdate : UpdateCallback) (st st1 st2 : State)
    (err : exn)
    (Hex : execute T = Some ex)
    (Hbefore : runBeforeToolCallHook
                 (before_args (str_or (tool_name T) "tool") ctx toolCallId params)
                 st
               = (Resolved (Allowed params'), st1))
    (Htool : ex JUndefined toolCallId params' signal onUpdate st1 = (Rejected err, st2)) :
  invoke (wrapToolWithBeforeToolCallHook T ctx)
         toolCallId params signal onUpdate st
    = (Rejected err, st2)
  ∧ (∀ f, ex = external_tool f →
       trace st2 = trace st1 ++ [EvExecute toolCallId params' signal onUpdate]).
Proof.
  split.
  - rewrite (invoke_wrapped _ _ _ Hex).
    exact (wrapped_tool_rejects Hbefore Htool).
  - intros f ->. unfold external_tool, external in Htool.
    destruct (f _ _ _ _ _ _). by inversion Htool.
Qed.

(** ** C9: wrapping builds a new tool from the own properties of the old *)

(** C9 (as the code has it). A tool without [execute] is returned as it
    is.  For a tool [T] with an [execute], the result is a new tool whose
    [execute] is the wrapped one and whose own data properties are
    exactly the own data properties of [T]; it inherits nothing: what [T]
    inherits through its prototype chain is not carried over.  So a data
    property reads on the wrapped tool as on [T] exactly when [T] owns it
    or does not have it at all.  The function only reads [T]: it is a
    function of the tool value and has no state through which to change
    it. *)
Theorem C9_wrap_frame (T : Tool) (ctx : option HookContext) :
  let W := wrapToolWithBeforeToolCallHook T ctx in
  (execute T = None → W = T)
  ∧ (∀ ex, execute T = Some ex →
       data (own W) = data (own T)
       ∧ method_execute (own W)
         = Some (wrappedExecute ex (str_or (tool_name T) "tool") ctx)
       ∧ inherited W = no_props
       ∧ (∀ key, get_data W key = data (own T) !! key)
       ∧ (∀ key, get_data W key = get_data T key
                 ↔ (is_Some (data (own T) !! key)
                    ∨ data (inherited T) !! key = None))).
Proof.
  intros W. unfold W, wrapToolWithBeforeToolCallHook.
  destruct (execute T) as [ex0|] eqn:Hex; (split; [done|]).
  2: { intros ex Hex'. discriminate. }
  intros ex [= <-]. simpl.
  assert (Hget : ∀ key,
    get_data {| own := {| data := data (own T);
                          method_execute :=
                            Some (wrappedExecute ex0
                                    (str_or (tool_name T) "tool") ctx) |};
                inherited := no_props |} key = data (own T) !! key).
  { intros key. unfold get_data. simpl. by rewrite (right_id_L ∅ (∪)). }
  split; [done|]. split; [done|]. split; [done|]. split; [exact Hget|].
  intros key. rewrite Hget. unfold get_data. rewrite lookup_union.
  destruct (data (own T) !! key) as [v|] eqn:Hown;
    destruct (data (inherited T) !! key) as [v'|] eqn:Hinh; simpl.
  - split; [intros _; left; by eexists|done].
  - split; [intros _; left; by eexists|done].
  - split; [done|]. intros [[? ?]|?]; done.
  - split; [intros _; by right|done].
Qed.

(** ** C10: a block reason is never empty *)

Lemma opt_str_or_nonempty (s : option string) (d : string) :
  d ≠ "" → opt_str_or s d ≠ "".
Proof. destruct s; [apply str_or_nonempty|done]. Qed.

Lemma before_blocked_reason (args : BeforeHookArgs) (st st1 : State) why :
  runBeforeToolCallHook args st = (Resolved (Blocked why), st1) → why ≠ "".
Proof.
  unfold runBeforeToolCallHook, bind, get_world, query, external, try_catch,
    ret, warn, to_string.
  destruct (getGlobalHookRunner (world st)) as [r|]; simpl; [|by inversion 1].
  destruct (hasHooks r _ _) as [[[]|err] w1]; simpl; try by inversion 1.
  destruct (runBeforeToolCall r _ _ _) as [[hookResult|err] w2]; simpl;
    [|destruct (String_of _); by inversion 1].
  destruct (block_set _); simpl.
  - intros [= <- _]. by apply opt_str_or_nonempty.
  - destruct (truthy _ && isPlainObject _);
      [destruct (isPlainObject (b_params args))|]; by inversion 1.
Qed.

Lemma after_blocked_reason (args : AfterHookArgs) (st st1 : State) outcome :
  runToolResultReceivedHook args st = (Resolved outcome, st1) →
  blocked outcome = true →
  ∃ why, reason outcome = Some why ∧ why ≠ "".
Proof.
  unfold runToolResultReceivedHook, bind, get_world, query, external,
    try_catch, ret, warn, to_string.
  destruct (getGlobalHookRunner (world st)) as [r|]; simpl;
    [|by intros [= <- _]].
  destruct (hasHooks r _ _) as [[[]|err] w1]; simpl;
    try (by intros [= <- _]); try done.
  destruct (runToolResultReceived r _ _ _) as [[hookResult|err] w2]; simpl;
    [|destruct (String_of _); simpl; [by intros [= <- _]|done]].
  destruct (block_set _); simpl.
  - intros [= <- _] _. eexists. split; [done|].
    by apply opt_str_or_nonempty.
  - destruct (is_undefined _); by intros [= <- _].
Qed.

(** C10. Every Blocked outcome carries a non-empty reason: whenever
    [runBeforeToolCallHook] returns Blocked, and whenever
    [runToolResultReceivedHook] returns [blocked: true], the reason is a
    non-empty string.  For a verdict with [block] set each dispatcher
    puts its fixed default message in place of a [blockReason] that is
    absent or the empty string (the falsy values of an optional string).
    So a wrapped call that a block makes fail, before or after the tool
    ran, fails with a non-empty message. *)
Theorem C10_block_reason_never_empty :
  (∀ (args : BeforeHookArgs) (st st1 : State) why,
     runBeforeToolCallHook args st = (Resolved (Blocked why), st1) →
     why ≠ "")
  ∧ (∀ (args : AfterHookArgs) (st st1 : State) outcome,
       runToolResultReceivedHook args st = (Resolved outcome, st1) →
       blocked outcome = true →
       ∃ why, reason outcome = Some why ∧ why ≠ "")
  ∧ (∀ (args : BeforeHookArgs) (st : State) hookRunner w1 w2 verdict,
       Registered hookRunner "before_tool_call" (world st) w1 →
       runBeforeToolCall hookRunner (before_event args) (before_ctx args) w1
         = (Resolved (Some verdict), w2) →
       bres_block verdict = Some true →
       bres_blockReason verdict = None ∨ bres_blockReason verdict = Some "" →
       fst (runBeforeToolCallHook args st)
         = Resolved (Blocked "Tool call blocked by plugin hook"))
  ∧ (∀ (args : AfterHookArgs) (st : State) hookRunner w1 w2 verdict,
       Registered hookRunner "tool_result_received" (world st) w1 →
       runToolResultReceived hookRunner (after_event args) (after_ctx args) w1
         = (Resolved (Some verdict), w2) →
       rres_block verdict = Some true →
       rres_blockReason verdict = None ∨ rres_blockReason verdict = Some "" →
       fst (runToolResultReceivedHook args st)
         = Resolved {| blocked := true;
                       reason := Some "Tool result blocked by plugin hook";
                       result := a_result args |})
  ∧ (∀ (T : Tool) ex ctx toolCallId params signal onUpdate (st st1 : State) why,
       execute T = Some ex →
       runBeforeToolCallHook
         (before_args (str_or (tool_name T) "tool") ctx toolCallId params) st
         = (Resolved (Blocked why), st1) →
       invoke (wrapToolWithBeforeToolCallHook T ctx)
              toolCallId params signal onUpdate st
         = (Rejected (JsError why), st1)
       ∧ why ≠ "")
  ∧ (∀ (T : Tool) ex ctx toolCallId params params' signal onUpdate
       (st st1 st2 st3 : State) toolResult outcome,
       execute T = Some ex →
       runBeforeToolCallHook
         (before_args (str_or (tool_name T) "tool") ctx toolCallId params) st
         = (Resolved (Allowed params'), st1) →
       ex JUndefined toolCallId params' signal onUpdate st1
         = (Resolved toolResult, st2) →
       runToolResultReceivedHook
         (after_args (str_or (tool_name T) "tool") ctx toolCallId params'
            toolResult (Date_now (world st2) - Date_now (world st1))) st2
         = (Resolved outcome, st3) →
       blocked outcome = true →
       ∃ why,
         invoke (wrapToolWithBeforeToolCallHook T ctx)
                toolCallId params signal onUpdate st
           = (Rejected (JsError why), st3)
         ∧ why ≠ "").
Proof.
  split; [exact before_blocked_reason|].
  split; [exact after_blocked_reason|].
  split; [|split; [|split]].
  - intros args st r w1 w2 verdict Hreg Hrun Hblock Hfalsy.
    rewrite (before_blocked Hreg Hrun Hblock).
    by destruct Hfalsy as [-> | ->].
  - intros args st r w1 w2 verdict Hreg Hrun Hblock Hfalsy.
    rewrite (after_blocked Hreg Hrun Hblock).
    by destruct Hfalsy as [-> | ->].
  - intros T ex ctx toolCallId params signal onUpdate st st1 why Hex Hb.
    split; [|exact (before_blocked_reason _ _ _ _ Hb)].
    rewrite (invoke_wrapped _ _ _ Hex). by apply wrapped_before_blocks.
  - intros T ex ctx toolCallId params params' signal onUpdate
      st st1 st2 st3 toolResult outcome Hex Hb Htool Ha Hblocked.
    destruct (after_blocked_reason _ _ _ _ Ha Hblocked) as (why & Hwhy & Hne).
    exists why. split; [|done].
    rewrite (invoke_wrapped _ _ _ Hex).
    rewrite (wrapped_tool_resolves Hb Htool).
    by rewrite Ha, Hblocked, Hwhy.
Qed.

(** * Further properties of the code *)

(** ** The shape test *)

(** X1. [isPlainObject] holds of the objects and of nothing else: not of
    [null] nor of an array, although [typeof] answers "object" for both,
    and not of [undefined], a boolean, a number or a string.  Every value
    it holds of is truthy, so the test [hookResult?.params &&
    isPlainObject(hookResult.params)] of line 53 decides as
    [isPlainObject] alone. *)
Theorem X1_isPlainObject_exactly_objects (value : jsval) :
  (isPlainObject value = true ↔ ∃ props, value = JObj props)
  ∧ isPlainObject JNull = false
  ∧ (∀ items, isPlainObject (JArr items) = false)
  ∧ truthy value && isPlainObject value = isPlainObject value.
Proof.
  split; [|split; [done|split; [done|]]].
  2: { destruct value; simpl; by rewrite ?andb_false_r. }
  split.
  - destruct value; try discriminate. intros _. by eexists.
  - by intros [props ->].
Qed.

(** ** What the dispatchers can and cannot do *)

Lemma before_rejects_inv (args : BeforeHookArgs) (st st' : State) err :
  runBeforeToolCallHook args st = (Rejected err, st') →
  ∃ hookRunner,
    getGlobalHookRunner (world st) = Some hookRunner
    ∧ ((hasHooks hookRunner "before_tool_call" (world st)
          = (Rejected err, world st')
        ∧ trace st' = trace st)
       ∨ ∃ w1 thrown,
           hasHooks hookRunner "before_tool_call" (world st)
             = (Resolved true, w1)
           ∧ runBeforeToolCall hookRunner (before_event args)
                               (before_ctx args) w1
             = (Rejected thrown, world st')
           ∧ String_of thrown = Rejected err
           ∧ trace st'
             = trace st
               ++ [EvRunBeforeToolCall (before_event args) (before_ctx args)]).
Proof.
  unfold runBeforeToolCallHook, bind, get_world, query, external, try_catch,
    ret, warn, to_string, before_event, before_ctx, normalized_name.
  destruct (getGlobalHookRunner (world st)) as [r|]; simpl; [|by inversion 1].
  destruct (hasHooks r "before_tool_call" (world st)) as [[[]|e0] w1]
    eqn:Hhas; simpl; [|by inversion 1|].
  - destruct (runBeforeToolCall r _ _ _) as [[hookResult|e1] w2] eqn:Hrun;
      simpl.
    + destruct (block_set _); simpl; [by inversion 1|].
      destruct (truthy _ && isPlainObject _);
        [destruct (isPlainObject (b_params args))|]; by inversion 1.
    + destruct (String_of e1) as [error|e2] eqn:Hstr; simpl; [by inversion 1|].
      intros [= <- <-]. exists r. split; [done|]. right. by exists w1, e1.
  - intros [= <- <-]. exists r. split; [done|]. by left.
Qed.

Lemma after_rejects_inv (args : AfterHookArgs) (st st' : State) err :
  runToolResultReceivedHook args st = (Rejected err, st') →
  ∃ hookRunner,
    getGlobalHookRunner (world st) = Some hookRunner
    ∧ ((hasHooks hookRunner "tool_result_received" (world st)
          = (Rejected err, world st')
        ∧ trace st' = trace st)
       ∨ ∃ w1 thrown,
           hasHooks hookRunner "tool_result_received" (world st)
             = (Resolved true, w1)
           ∧ runToolResultReceived hookRunner (after_event args)
                                   (after_ctx args) w1
             = (Rejected thrown, world st')
           ∧ String_of thrown = Rejected err
           ∧ trace st'
             = trace st
               ++ [EvRunToolResultReceived (after_event args) (after_ctx args)]).
Proof.
  unfold runToolResultReceivedHook, bind, get_world, query, external,
    try_catch, ret, warn, to_string, after_event, after_ctx, normalized_name.
  destruct (getGlobalHookRunner (world st)) as [r|]; simpl; [|by inversion 1].
  destruct (hasHooks r "tool_result_received" (world st)) as [[[]|e0] w1]
    eqn:Hhas; simpl; [|by inversion 1|].
  - destruct (runToolResultReceived r _ _ _) as [[hookResult|e1] w2] eqn:Hrun;
      simpl.
    + destruct (block_set _); simpl; [by inversion 1|].
      destruct (is_undefined _); by inversion 1.
    + destruct (String_of e1) as [error|e2] eqn:Hstr; simpl; [by inversion 1|].
      intros [= <- <-]. exists r. split; [done|]. right. by exists w1, e1.
  - intros [= <- <-]. exists r. split; [done|]. by left.
Qed.

(** X2. A dispatcher rejects in two ways only.  Either the runner's
    [hasHooks] rejected: the dispatcher rejects with that very error and
    lists nothing.  Or handlers were registered, the hook run failed, and
    [String] threw on the caught value inside the [catch] block: the
    dispatcher rejects with what [String] threw, having listed the
    dispatch and no warning.  A hook run that fails with an error
    [String] can convert never makes a dispatcher reject. *)
Theorem X2_how_dispatchers_reject :
  (∀ (args : BeforeHookArgs) (st st' : State) err,
     runBeforeToolCallHook args st = (Rejected err, st') →
     ∃ hookRunner,
       getGlobalHookRunner (world st) = Some hookRunner
       ∧ ((hasHooks hookRunner "before_tool_call" (world st)
             = (Rejected err, world st')
           ∧ trace st' = trace st)
          ∨ ∃ w1 thrown,
              hasHooks hookRunner "before_tool_call" (world st)
                = (Resolved true, w1)
              ∧ runBeforeToolCall hookRunner (before_event args)
                                  (before_ctx args) w1
                = (Rejected thrown, world st')
              ∧ String_of thrown = Rejected err
              ∧ trace st'
                = trace st
                  ++ [EvRunBeforeToolCall (before_event args)
                                          (before_ctx args)]))
  ∧ (∀ (args : AfterHookArgs) (st st' : State) err,
       runToolResultReceivedHook args st = (Rejected err, st') →
       ∃ hookRunner,
         getGlobalHookRunner (world st) = Some hookRunner
         ∧ ((hasHooks hookRunner "tool_result_received" (world st)
               = (Rejected err, world st')
             ∧ trace st' = trace st)
            ∨ ∃ w1 thrown,
                hasHooks hookRunner "tool_result_received" (world st)
                  = (Resolved true, w1)
                ∧ runToolResultReceived hookRunner (after_event args)
                                        (after_ctx args) w1
                  = (Rejected thrown, world st')
                ∧ String_of thrown = Rejected err
                ∧ trace st'
                  = trace st
                    ++ [EvRunToolResultReceived (after_event args)
                                                (after_ctx args)])).
Proof.
  split; [exact before_rejects_inv|exact after_rejects_inv].
Qed.

(** X3. Only a verdict can block: when [runBeforeToolCallHook] returns
    Blocked, or [runToolResultReceivedHook] returns [blocked: true], the
    runner had handlers registered and its run resolved to a verdict
    whose [block] is [true]; the reason returned is that verdict's
    [blockReason], or the default message in its place.  A run that
    fails, resolves to nothing, or resolves to a verdict without [block]
    never blocks. *)
Theorem X3_only_a_verdict_blocks :
  (∀ (args : BeforeHookArgs) (st st' : State) why,
     runBeforeToolCallHook args st = (Resolved (Blocked why), st') →
     ∃ hookRunner w1 verdict,
       Registered hookRunner "before_tool_call" (world st) w1
       ∧ runBeforeToolCall hookRunner (before_event args) (before_ctx args) w1
         = (Resolved (Some verdict), world st')
       ∧ bres_block verdict = Some true
       ∧ why = opt_str_or (bres_blockReason verdict)
                          "Tool call blocked by plugin hook")
  ∧ (∀ (args : AfterHookArgs) (st st' : State) outcome,
       runToolResultReceivedHook args st = (Resolved outcome, st') →
       blocked outcome = true →
       ∃ hookRunner w1 verdict,
         Registered hookRunner "tool_result_received" (world st) w1
         ∧ runToolResultReceived hookRunner (after_event args) (after_ctx args) w1
           = (Resolved (Some verdict), world st')
         ∧ rres_block verdict = Some true
         ∧ reason outcome
           = Some (opt_str_or (rres_blockReason verdict)
                              "Tool result blocked by plugin hook")).
Proof.
  split.
  - intros args st st' why.
    unfold runBeforeToolCallHook, bind, get_world, query, external, try_catch,
      ret, warn, to_string, Registered, before_event, before_ctx, normalized_name.
    destruct (getGlobalHookRunner (world st)) as [r|]; simpl; [|by inversion 1].
    destruct (hasHooks r "before_tool_call" (world st)) as [[[]|e0] w1]
      eqn:Hhas; simpl; try by inversion 1.
    destruct (runBeforeToolCall r _ _ _) as [[hookResult|e1] w2] eqn:Hrun;
      simpl; [|destruct (String_of e1); by inversion 1].
    destruct (block_set _) eqn:Hblock; simpl.
    + intros [= <- <-]. simpl.
      destruct hookResult as [verdict|]; [|done]. simpl in *.
      exists r, w1, verdict. repeat split; try done.
      by destruct (bres_block verdict) as [[]|].
    + destruct (truthy _ && isPlainObject _);
        [destruct (isPlainObject (b_params args))|]; by inversion 1.
  - intros args st st' outcome.
    unfold runToolResultReceivedHook, bind, get_world, query, external,
      try_catch, ret, warn, to_string, Registered, after_event, after_ctx,
      normalized_name.
    destruct (getGlobalHookRunner (world st)) as [r|]; simpl;
      [|by intros [= <- _]].
    destruct (hasHooks r "tool_result_received" (world st)) as [[[]|e0] w1]
      eqn:Hhas; simpl; try (by intros [= <- _]); try done.
    destruct (runToolResultReceived r _ _ _) as [[hookResult|e1] w2] eqn:Hrun;
      simpl; [|destruct (String_of e1); simpl; [by intros [= <- _]|done]].
    destruct (block_set _) eqn:Hblock; simpl.
    + intros [= <- <-] _. simpl.
      destruct hookResult as [verdict|]; [|done]. simpl in *.
      exists r, w1, verdict. repeat split; try done.
      by destruct (rres_block verdict) as [[]|].
    + destruct (is_undefined _); by intros [= <- _].
Qed.

(** ** What a hook can do to the params *)

(** X5. An empty mapping as replacement params is a mapping like any
    other: laid over original params that are a plain mapping it changes
    nothing, but original params that are no plain mapping (a string, an
    array, [null]) are replaced by the empty mapping. *)
Theorem X5_empty_replacement (args : BeforeHookArgs) (st : State)
    (hookRunner : HookRunner World) (w1 w2 : World)
    (verdict : BeforeToolCallResult)
    (Hreg : Registered hookRunner "before_tool_call" (world st) w1)
    (Hrun : runBeforeToolCall hookRunner (before_event args) (before_ctx args) w1
            = (Resolved (Some verdict), w2))
    (Hallow : bres_block verdict ≠ Some true)
    (Hempty : bres_params verdict = JObj ∅) :
  (isPlainObject (b_params args) = true →
     fst (runBeforeToolCallHook args st) = Resolved (Allowed (b_params args)))
  ∧ (isPlainObject (b_params args) = false →
       fst (runBeforeToolCallHook args st) = Resolved (Allowed (JObj ∅))).
Proof.
  rewrite (before_replaced Hreg Hrun Hallow Hempty). simpl.
  split; intros Hshape; rewrite Hshape; [|done].
  destruct (b_params args); try discriminate. simpl.
  by rewrite (left_id_L ∅ (∪)).
Qed.

(** X6. Replacement params that are no plain mapping (absent, [null], a
    boolean, a number, a string or an array) are ignored, whatever the
    original params are: if the verdict does not block,
    [runBeforeToolCallHook] returns Allowed with the original params, and
    a wrapped tool that is external code executes with them, once. *)
Theorem X6_non_mapping_replacement_is_ignored (args : BeforeHookArgs)
    (st : State) (hookRunner : HookRunner World) (w1 w2 : World)
    (hookResult : option BeforeToolCallResult)
    (Hreg : Registered hookRunner "before_tool_call" (world st) w1)
    (Hrun : runBeforeToolCall hookRunner (before_event args) (before_ctx args) w1
            = (Resolved hookResult, w2))
    (Hallow : block_set (hookResult ≫= bres_block) = false)
    (Hshape : ∀ props,
       from_option bres_params JUndefined hookResult ≠ JObj props) :
  let st1 :=
    moved st w2 [EvRunBeforeToolCall (before_event args) (before_ctx args)] in
  runBeforeToolCallHook args st = (Resolved (Allowed (b_params args)), st1)
  ∧ (∀ (T : Tool) f ctx toolCallId signal onUpdate,
       execute T = Some (external_tool f) →
       args = before_args (str_or (tool_name T) "tool") ctx toolCallId
                          (b_params args) →
       ∃ evs,
         trace (snd (invoke (wrapToolWithBeforeToolCallHook T ctx)
                       toolCallId (b_params args) signal onUpdate st))
         = trace st1 ++ EvExecute toolCallId (b_params args) signal onUpdate :: evs
         ∧ Forall (λ ev, is_execute ev = false) evs).
Proof.
  intros st1.
  assert (Hnone : isPlainObject (from_option bres_params JUndefined hookResult)
                  = false).
  { destruct (from_option bres_params JUndefined hookResult) as [| | | | | |props];
      try done. by destruct (Hshape props). }
  pose proof (before_untouched Hreg Hrun Hallow Hnone) as Hb. fold st1 in Hb.
  split; [exact Hb|].
  intros T f ctx toolCallId signal onUpdate Hex Hargs.
  rewrite (invoke_wrapped _ _ _ Hex).
  apply wrapped_executes_once. by rewrite <- Hargs.
Qed.

(** ** What a call lists on the trace, in full *)

Lemma str_or_idem (s d : string) : str_or (str_or s d) d = str_or s d.
Proof.
  unfold str_or. destruct (String.eqb s "") eqn:Hs; [|by rewrite Hs].
  by destruct (String.eqb d "").
Qed.

Lemma filter_no_execute (evs : list Event) :
  Forall (λ ev, is_execute ev = false) evs → List.filter is_execute evs = [].
Proof.
  induction 1 as [|ev evs Hev _ IH]; [done|]. simpl. by rewrite Hev.
Qed.

Lemma before_footprint (args : BeforeHookArgs) (st : State) :
  ∃ evs,
    trace (snd (runBeforeToolCallHook args st)) = trace st ++ evs
    ∧ (evs = []
       ∨ evs = [EvRunBeforeToolCall (before_event args) (before_ctx args)]
       ∨ ∃ err error,
           String_of err = Resolved error
           ∧ evs = [EvRunBeforeToolCall (before_event args) (before_ctx args);
                    EvWarn (before_warning (normalized_name (b_toolName args))
                                           (b_toolCallId args) error)]).
Proof.
  unfold runBeforeToolCallHook, bind, get_world, query, external, try_catch,
    ret, warn, to_string, before_event, before_ctx, normalized_name.
  destruct (getGlobalHookRunner (world st)) as [r|]; simpl;
    [|exists []; split; [by rewrite app_nil_r|by left]].
  destruct (hasHooks r "before_tool_call" (world st)) as [[[]|e0] w1]; simpl;
    try (exists []; split; [by rewrite app_nil_r|by left]).
  destruct (runBeforeToolCall r _ _ _) as [[hookResult|e1] w2]; simpl.
  - eexists. split; [|right; left; reflexivity].
    destruct (block_set _); [done|].
    destruct (truthy _ && isPlainObject _);
      [destruct (isPlainObject (b_params args))|]; done.
  - destruct (String_of e1) as [error|e2] eqn:Hstr; simpl.
    + eexists. split; [|right; right; by eexists _, _].
      by rewrite <- app_assoc.
    + eexists. split; [|right; left; reflexivity]. done.
Qed.

Lemma after_footprint (args : AfterHookArgs) (st : State) :
  ∃ evs,
    trace (snd (runToolResultReceivedHook args st)) = trace st ++ evs
    ∧ (evs = []
       ∨ evs = [EvRunToolResultReceived (after_event args) (after_ctx args)]
       ∨ ∃ err error,
           String_of err = Resolved error
           ∧ evs = [EvRunToolResultReceived (after_event args) (after_ctx args);
                    EvWarn (after_warning (normalized_name (a_toolName args))
                                          (a_toolCallId args) error)]).
Proof.
  unfold runToolResultReceivedHook, bind, get_world, query, external,
    try_catch, ret, warn, to_string, after_event, after_ctx, normalized_name.
  destruct (getGlobalHookRunner (world st)) as [r|]; simpl;
    [|exists []; split; [by rewrite app_nil_r|by left]].
  destruct (hasHooks r "tool_result_received" (world st)) as [[[]|e0] w1];
    simpl; try (exists []; split; [by rewrite app_nil_r|by left]).
  destruct (runToolResultReceived r _ _ _) as [[hookResult|e1] w2]; simpl.
  - eexists. split; [|right; left; reflexivity].
    destruct (block_set _); [done|]. by destruct (is_undefined _).
  - destruct (String_of e1) as [error|e2] eqn:Hstr; simpl.
    + eexists. split; [|right; right; by eexists _, _].
      by rewrite <- app_assoc.
    + eexists. split; [|right; left; reflexivity]. done.
Qed.

Lemma before_trace (args : BeforeHookArgs) (st : State) :
  ∃ evs, trace (snd (runBeforeToolCallHook args st)) = trace st ++ evs
         ∧ Forall (λ ev, is_execute ev = false) evs.
Proof.
  destruct (before_footprint args st)
    as (evs & Htr & [-> | [-> | (err & error & _ & ->)]]);
    eexists; (split; [exact Htr|by repeat constructor]).
Qed.

Lemma after_registered_trace (args : AfterHookArgs) (st : State)
    hookRunner w1 :
  Registered hookRunner "tool_result_received" (world st) w1 →
  ∃ evs,
    trace (snd (runToolResultReceivedHook args st))
    = trace st ++ EvRunToolResultReceived (after_event args) (after_ctx args) :: evs
    ∧ length evs ≤ 1.
Proof.
  intros [Hget Hhas].
  unfold runToolResultReceivedHook, bind, get_world, query, external,
    try_catch, ret, warn, to_string, after_event, after_ctx, normalized_name.
  rewrite Hget, Hhas. simpl.
  destruct (runToolResultReceived hookRunner _ _ _) as [[hookResult|e1] w2];
    simpl.
  - exists []. split; [|simpl; lia].
    destruct (block_set _); [done|]. by destruct (is_undefined _).
  - destruct (String_of e1) as [error|e2]; simpl.
    + eexists [_]. split; [|simpl; lia]. by rewrite <- app_assoc.
    + exists []. split; [done|simpl; lia].
Qed.

(** X7. The event a wrapped call hands to the [tool_result_received]
    handlers, when there are any: it names the tool by its normalized
    name ("tool" for a tool without name), carries the params the tool
    was executed with (the rewritten ones, not the caller's), the result
    the tool resolved to, and as duration the clock after the tool
    resolved minus the clock just before it was executed, so the time the
    before-call hook took is not counted.  At most a warning follows it
    on the trace. *)
Theorem X7_after_event_contents (T : Tool) (ex : Exec)
    (ctx : option HookContext) (toolCallId : string) (params params' : jsval)
    (signal : AbortSignal) (onUpdate : UpdateCallback) (st st1 st2 : State)
    (toolResult : jsval) (hookRunner : HookRunner World) (w3 : World)
    (Hex : execute T = Some ex)
    (Hbefore : runBeforeToolCallHook
                 (before_args (str_or (tool_name T) "tool") ctx toolCallId params)
                 st
               = (Resolved (Allowed params'), st1))
    (Htool : ex JUndefined toolCallId params' signal onUpdate st1
             = (Resolved toolResult, st2))
    (Hreg : Registered hookRunner "tool_result_received" (world st2) w3) :
  let name :=
    normalizeToolName (if decide (tool_name T = "") then "tool"
                       else tool_name T) in
  let event :=
    {| rev_toolName := name;
       rev_params := params';
       rev_result := toolResult;
       rev_durationMs :=
         Some (Date_now (world st2) - Date_now (world st1))%Z |} in
  let hctx :=
    {| tc_toolName := name;
       tc_agentId := ctx ≫= agentId;
       tc_sessionKey := ctx ≫= sessionKey |} in
  ∃ evs,
    trace (snd (invoke (wrapToolWithBeforeToolCallHook T ctx)
                  toolCallId params signal onUpdate st))
    = trace st2 ++ EvRunToolResultReceived event hctx :: evs
    ∧ length evs ≤ 1.
Proof.
  intros name event hctx.
  rewrite (invoke_wrapped _ _ _ Hex).
  rewrite (wrapped_tool_resolves Hbefore Htool).
  destruct (after_registered_trace
    (after_args (str_or (tool_name T) "tool") ctx toolCallId params' toolResult
       (Date_now (world st2) - Date_now (world st1))) st2 _ _ Hreg)
    as (evs & Htr & Hlen).
  exists evs. split; [|done].
  assert (Hname : normalized_name (str_or (tool_name T) "tool") = name).
  { unfold normalized_name, name. rewrite str_or_idem. unfold str_or.
    destruct (String.eqb_spec (tool_name T) ""); by case_decide. }
  unfold after_event, after_ctx, hook_context in Htr. simpl in Htr.
  rewrite Hname in Htr.
  by destruct (runToolResultReceivedHook _ st2) as [[outcome|err] st3].
Qed.

(** X8. What a dispatcher lists on the trace: nothing, or one dispatch to
    the runner, or one dispatch followed by one warning (whose text ends
    in what [String] made of a caught error); it lists no execution of a
    tool and never dispatches twice.  The params in the
    event of a [before_tool_call] dispatch are always a plain mapping:
    the original params when they are one, the empty mapping otherwise. *)
Theorem X8_dispatcher_footprint :
  (∀ (args : BeforeHookArgs) (st : State),
     let dispatch :=
       EvRunBeforeToolCall (before_event args) (before_ctx args) in
     isPlainObject (bev_params (before_event args)) = true
     ∧ (isPlainObject (b_params args) = true →
          bev_params (before_event args) = b_params args)
     ∧ (isPlainObject (b_params args) = false →
          bev_params (before_event args) = JObj ∅)
     ∧ ∃ evs,
         trace (snd (runBeforeToolCallHook args st)) = trace st ++ evs
         ∧ (evs = [] ∨ evs = [dispatch]
            ∨ ∃ err error,
                String_of err = Resolved error
                ∧ evs = [dispatch;
                         EvWarn (before_warning
                                   (normalized_name (b_toolName args))
                                   (b_toolCallId args) error)]))
  ∧ (∀ (args : AfterHookArgs) (st : State),
       let dispatch :=
         EvRunToolResultReceived (after_event args) (after_ctx args) in
       ∃ evs,
         trace (snd (runToolResultReceivedHook args st)) = trace st ++ evs
         ∧ (evs = [] ∨ evs = [dispatch]
            ∨ ∃ err error,
                String_of err = Resolved error
                ∧ evs = [dispatch;
                         EvWarn (after_warning
                                   (normalized_name (a_toolName args))
                                   (a_toolCallId args) error)])).
Proof.
  split.
  - intros args st dispatch.
    split; [|split; [|split]].
    + unfold before_event. simpl.
      by destruct (isPlainObject (b_params args)) eqn:Hshape.
    + unfold before_event. simpl. by intros ->.
    + unfold before_event. simpl. by intros ->.
    + apply before_footprint.
  - intros args st dispatch. apply after_footprint.
Qed.

(** X9. A wrapped tool that is external code is executed at most once per
    call, whatever the hooks do, and when it is executed it gets the
    call id, the cancellation signal and the progress callback the caller
    passed: only the params can differ. *)
Theorem X9_at_most_one_execution (T : Tool) f (ctx : option HookContext)
    (toolCallId : string) (params : jsval)
    (signal : AbortSignal) (onUpdate : UpdateCallback) (st : State)
    (Hex : execute T = Some (external_tool f)) :
  ∃ evs,
    trace (snd (invoke (wrapToolWithBeforeToolCallHook T ctx)
                  toolCallId params signal onUpdate st))
    = trace st ++ evs
    ∧ (List.filter is_execute evs = []
       ∨ ∃ params',
           List.filter is_execute evs
           = [EvExecute toolCallId params' signal onUpdate]).
Proof.
  rewrite (invoke_wrapped _ _ _ Hex).
  destruct (before_trace
    (before_args (str_or (tool_name T) "tool") ctx toolCallId params) st)
    as (evsb & Htrb & Hevsb).
  destruct (runBeforeToolCallHook _ st) as [[[why|params']|err] st1] eqn:Hb;
    simpl in Htrb.
  - rewrite (wrapped_before_blocks Hb). exists evsb.
    split; [done|]. left. by apply filter_no_execute.
  - destruct (wrapped_executes_once f _ _
      (receiver (wrapToolWithBeforeToolCallHook T ctx)) _ _ signal onUpdate
      _ _ _ Hb)
      as (evsa & Htra & Hevsa).
    exists (evsb ++ EvExecute toolCallId params' signal onUpdate :: evsa).
    split; [by rewrite Htra, Htrb, <- app_assoc|].
    right. exists params'. rewrite List.filter_app. simpl.
    by rewrite !filter_no_execute.
  - rewrite (wrapped_before_rejects Hb). exists evsb.
    split; [done|]. left. by apply filter_no_execute.
Qed.

(** ** How a wrapped call can end *)

Lemma after_outcome_inv (args : AfterHookArgs) (st st' : State) outcome :
  runToolResultReceivedHook args st = (Resolved outcome, st') →
  (blocked outcome = true ↔ is_Some (reason outcome))
  ∧ (blocked outcome = true → result outcome = a_result args)
  ∧ (result outcome = a_result args ∨ result outcome ≠ JUndefined).
Proof.
  unfold runToolResultReceivedHook, bind, get_world, query, external,
    try_catch, ret, warn, to_string.
  assert (Hplain : ∀ (v : jsval),
    let o := {| blocked := false; reason := None; result := v |} in
    (blocked o = true ↔ is_Some (reason o))).
  { intros v. simpl. split; [done|]. by intros [? ?]. }
  destruct (getGlobalHookRunner (world st)) as [r|]; simpl;
    [|intros [= <- _]; split; [apply Hplain|split; [done|by left]]].
  destruct (hasHooks r "tool_result_received" (world st)) as [[[]|e0] w1];
    simpl; try done;
    try (intros [= <- _]; split; [apply Hplain|split; [done|by left]]).
  destruct (runToolResultReceived r _ _ _) as [[hookResult|e1] w2]; simpl;
    [|destruct (String_of e1); simpl; [|done];
      intros [= <- _]; split; [apply Hplain|split; [done|by left]]].
  destruct (block_set _); simpl.
  - intros [= <- _]. simpl. split; [|split; [done|by left]].
    split; [by eexists|done].
  - destruct (is_undefined _) eqn:Hu; simpl; intros [= <- _];
      (split; [apply Hplain|split; [done|]]); [by left|].
    right. simpl. intros Heq. rewrite Heq in Hu. discriminate.
Qed.

(** X10. A wrapped call rejects in these ways only.  The before-call
    dispatcher itself rejected (X2 says when), and the call rejects with
    its error.  Or it returned a block, and the call rejects with an
    [Error] whose message is the block's non-empty reason.  Or it allowed
    params, and then: the tool's [execute], called detached on those
    params, rejected, and the call rejects with the tool's error in the
    state the tool left; or the tool resolved and the after-call
    dispatcher rejected, or blocked, in the same two ways. *)
Theorem X10_wrapped_rejection_causes (T : Tool) (ex : Exec)
    (ctx : option HookContext) (toolCallId : string) (params : jsval)
    (signal : AbortSignal) (onUpdate : UpdateCallback) (st st' : State)
    (err : exn)
    (Hex : execute T = Some ex)
    (Hcall : invoke (wrapToolWithBeforeToolCallHook T ctx)
                    toolCallId params signal onUpdate st
             = (Rejected err, st')) :
  let name := str_or (tool_name T) "tool" in
  let bargs := before_args name ctx toolCallId params in
  runBeforeToolCallHook bargs st = (Rejected err, st')
  ∨ (∃ why,
       runBeforeToolCallHook bargs st = (Resolved (Blocked why), st')
       ∧ err = JsError why ∧ why ≠ "")
  ∨ (∃ params' st1,
       runBeforeToolCallHook bargs st = (Resolved (Allowed params'), st1)
       ∧ (ex JUndefined toolCallId params' signal onUpdate st1
            = (Rejected err, st')
          ∨ ∃ toolResult st2,
              ex JUndefined toolCallId params' signal onUpdate st1
                = (Resolved toolResult, st2)
              ∧ let aargs :=
                  after_args name ctx toolCallId params' toolResult
                    (Date_now (world st2) - Date_now (world st1)) in
                (runToolResultReceivedHook aargs st2 = (Rejected err, st')
                 ∨ ∃ outcome why,
                     runToolResultReceivedHook aargs st2
                       = (Resolved outcome, st')
                     ∧ blocked outcome = true
                     ∧ reason outcome = Some why
                     ∧ err = JsError why ∧ why ≠ ""))).
Proof.
  intros name bargs. unfold bargs, name.
  rewrite (invoke_wrapped _ _ _ Hex) in Hcall.
  destruct (runBeforeToolCallHook
    (before_args (str_or (tool_name T) "tool") ctx toolCallId params) st)
    as [[[why|params']|e0] st1] eqn:Hb.
  - rewrite (wrapped_before_blocks Hb) in Hcall.
    injection Hcall as <- <-. right; left. exists why.
    split; [done|]. split; [done|exact (before_blocked_reason _ _ _ _ Hb)].
  - right; right. exists params', st1. split; [done|].
    destruct (ex JUndefined toolCallId params' signal onUpdate st1)
      as [[toolResult|e1] st2] eqn:Htool.
    + rewrite (wrapped_tool_resolves Hb Htool) in Hcall.
      right. exists toolResult, st2. split; [done|]. cbv zeta.
      destruct (runToolResultReceivedHook _ st2) as [[outcome|e2] st3] eqn:Ha.
      * destruct (blocked outcome) eqn:Hblocked; [|discriminate].
        injection Hcall as <- <-.
        destruct (after_blocked_reason _ _ _ _ Ha Hblocked)
          as (why & Hwhy & Hne).
        right. exists outcome, why. rewrite Hwhy. by simpl.
      * injection Hcall as <- <-. by left.
    + rewrite (wrapped_tool_rejects Hb Htool) in Hcall.
      injection Hcall as <- <-. by left.
  - rewrite (wrapped_before_rejects Hb) in Hcall.
    injection Hcall as <- <-. by left.
Qed.

(** X11. A wrapped call resolves only after the tool itself resolved: the
    before-call dispatcher had allowed the call, [execute] ran on the
    allowed params and resolved, and the after-call dispatcher did not
    block.  The value the caller gets is the tool's result, or a
    replacement other than [undefined]. *)
Theorem X11_wrapped_resolution (T : Tool) (ex : Exec)
    (ctx : option HookContext) (toolCallId : string) (params : jsval)
    (signal : AbortSignal) (onUpdate : UpdateCallback) (st st' : State)
    (value : jsval)
    (Hex : execute T = Some ex)
    (Hcall : invoke (wrapToolWithBeforeToolCallHook T ctx)
                    toolCallId params signal onUpdate st
             = (Resolved value, st')) :
  ∃ params' st1 toolResult st2 outcome,
    runBeforeToolCallHook
      (before_args (str_or (tool_name T) "tool") ctx toolCallId params) st
      = (Resolved (Allowed params'), st1)
    ∧ ex JUndefined toolCallId params' signal onUpdate st1
      = (Resolved toolResult, st2)
    ∧ runToolResultReceivedHook
        (after_args (str_or (tool_name T) "tool") ctx toolCallId params'
           toolResult (Date_now (world st2) - Date_now (world st1))) st2
      = (Resolved outcome, st')
    ∧ blocked outcome = false
    ∧ value = result outcome
    ∧ (value = toolResult ∨ value ≠ JUndefined).
Proof.
  rewrite (invoke_wrapped _ _ _ Hex) in Hcall.
  destruct (runBeforeToolCallHook
    (before_args (str_or (tool_name T) "tool") ctx toolCallId params) st)
    as [[[why|params']|e0] st1] eqn:Hb.
  - by rewrite (wrapped_before_blocks Hb) in Hcall.
  - destruct (ex JUndefined toolCallId params' signal onUpdate st1)
      as [[toolResult|e1] st2] eqn:Htool.
    + rewrite (wrapped_tool_resolves Hb Htool) in Hcall.
      destruct (runToolResultReceivedHook _ st2) as [[outcome|e2] st3] eqn:Ha;
        [|discriminate].
      destruct (blocked outcome) eqn:Hblocked; [discriminate|].
      injection Hcall as <- <-.
      destruct (after_outcome_inv _ _ _ _ Ha) as (_ & _ & Hres).
      by exists params', st1, toolResult, st2, outcome.
    + by rewrite (wrapped_tool_rejects Hb Htool) in Hcall.
  - by rewrite (wrapped_before_rejects Hb) in Hcall.
Qed.

(** X12. What [runToolResultReceivedHook] returns is well formed: it
    carries a reason exactly when it is blocked; when blocked, its result
    is the original result; and its result is never a replacement that is
    [undefined]: it is the original result or a value other than
    [undefined]. *)
Theorem X12_after_outcome_wellformed (args : AfterHookArgs) (st st' : State)
    (outcome : AfterOutcome)
    (Hcall : runToolResultReceivedHook args st = (Resolved outcome, st')) :
  (blocked outcome = true ↔ is_Some (reason outcome))
  ∧ (blocked outcome = true → result outcome = a_result args)
  ∧ (result outcome = a_result args ∨ result outcome ≠ JUndefined).
Proof. exact (after_outcome_inv _ _ _ _ Hcall). Qed.

(** ** Wrapping a wrapped tool *)

(** X13. Wrapping a wrapped tool nests two rounds of hooks, the outer one
    first.  The tool wrapped twice has an [execute] exactly when the
    original has one, and it is the outer wrapper around the inner one;
    the outer wrapper names the tool by the name the inner wrapped tool
    owns, which is the name the original owns (the name "tool" takes its
    place when the original only inherits its name).  When the verdict of
    the outer [before_tool_call] dispatch blocks, the call rejects after
    that one dispatch, and the inner wrapping, with its own context, is
    never entered.  And when there are no handlers at either consultation
    of the registry, the call through both wrappers settles as one call
    of the original [execute], detached, on the original params. *)
Theorem X13_wrapping_twice (T : Tool) (ctx1 ctx2 : option HookContext) :
  let W1 := wrapToolWithBeforeToolCallHook T ctx1 in
  let W := wrapToolWithBeforeToolCallHook W1 ctx2 in
  (execute W = None ↔ execute T = None)
  ∧ (∀ ex, execute T = Some ex →
       execute W
       = Some (wrappedExecute
                 (wrappedExecute ex (str_or (tool_name T) "tool") ctx1)
                 (str_or (tool_name W1) "tool") ctx2)
       ∧ tool_name W1
         = match data (own T) !! "name" with
           | Some (JStr name) => name
           | _ => ""
           end)
  ∧ (∀ toolCallId params signal onUpdate (st : State)
       hookRunner w1 w2 verdict,
       let args := before_args (str_or (tool_name W1) "tool") ctx2
                               toolCallId params in
       is_Some (execute T) →
       Registered hookRunner "before_tool_call" (world st) w1 →
       runBeforeToolCall hookRunner (before_event args) (before_ctx args) w1
         = (Resolved (Some verdict), w2) →
       bres_block verdict = Some true →
       invoke W toolCallId params signal onUpdate st
       = (Rejected (JsError (opt_str_or (bres_blockReason verdict)
                               "Tool call blocked by plugin hook")),
          moved st w2
            [EvRunBeforeToolCall (before_event args) (before_ctx args)]))
  ∧ (∀ ex toolCallId params signal onUpdate (st : State),
       execute T = Some ex →
       NoHandlers "before_tool_call" (world st) →
       (∀ toolResult st2,
          ex JUndefined toolCallId params signal onUpdate st
            = (Resolved toolResult, st2) →
          NoHandlers "tool_result_received" (world st2)) →
       invoke W toolCallId params signal onUpdate st
       = ex JUndefined toolCallId params signal onUpdate st).
Proof.
  intros W1 W. unfold W, W1. clear W W1.
  destruct (execute T) as [ex|] eqn:Hex.
  - pose proof (execute_wrapped T ex ctx1 Hex) as Hex1.
    pose proof (execute_wrapped _ _ ctx2 Hex1) as Hex2.
    split; [by rewrite Hex2|]. split.
    + intros ex' [= <-]. split; [exact Hex2|].
      unfold wrapToolWithBeforeToolCallHook. rewrite Hex.
      unfold tool_name, get_data. simpl. by rewrite (right_id_L ∅ (∪)).
    + split.
      * cbv zeta.
        intros toolCallId params signal onUpdate st r w1 w2 verdict
          _ Hreg Hrun Hblock.
        unfold invoke. rewrite Hex2.
        apply wrapped_before_blocks.
        exact (before_blocked Hreg Hrun Hblock).
      * intros ex' toolCallId params signal onUpdate st [= <-]
          Hbefore Hafter.
        unfold invoke. rewrite Hex2.
        assert (Hinner : ∀ this,
          wrappedExecute ex (str_or (tool_name T) "tool") ctx1 this
            toolCallId params signal onUpdate st
          = ex JUndefined toolCallId params signal onUpdate st).
        { intros this. by apply wrapped_passthrough. }
        rewrite wrapped_passthrough; [apply Hinner|done|].
        intros toolResult st2. rewrite Hinner. apply Hafter.
  - assert (Hid : wrapToolWithBeforeToolCallHook T ctx1 = T).
    { unfold wrapToolWithBeforeToolCallHook. by rewrite Hex. }
    rewrite Hid.
    assert (Hid2 : wrapToolWithBeforeToolCallHook T ctx2 = T).
    { unfold wrapToolWithBeforeToolCallHook. by rewrite Hex. }
    rewrite Hid2. rewrite Hex.
    split; [done|]. split; [done|]. split; [|done].
    cbv zeta. intros ? ? ? ? ? ? ? ? ? [? ?]. discriminate.
Qed.

(** ** What the before-call handlers are shown *)

Lemma before_registered_trace (args : BeforeHookArgs) (st : State)
    hookRunner w1 :
  Registered hookRunner "before_tool_call" (world st) w1 →
  ∃ evs,
    trace (snd (runBeforeToolCallHook args st))
    = trace st ++ EvRunBeforeToolCall (before_event args) (before_ctx args) :: evs
    ∧ Forall (λ ev, is_execute ev = false) evs.
Proof.
  intros [Hget Hhas].
  unfold runBeforeToolCallHook, bind, get_world, query, external, try_catch,
    ret, warn, to_string, before_event, before_ctx, normalized_name.
  rewrite Hget, Hhas. simpl.
  destruct (runBeforeToolCall hookRunner _ _ _) as [[hookResult|e1] w2]; simpl.
  - exists []. split; [|done].
    destruct (block_set _); [done|].
    destruct (truthy _ && isPlainObject _);
      [destruct (isPlainObject (b_params args))|]; done.
  - destruct (String_of e1) as [error|e2]; simpl.
    + eexists [_]. split; [by rewrite <- app_assoc|by repeat constructor].
    + by exists [].
Qed.

(** X14. The event a wrapped call hands to the [before_tool_call]
    handlers, when there are any, is the first thing the call lists: it
    names the tool by its normalized name ("tool" for a tool without
    name), in the event and in the context alike; its params are the
    caller's when they are a plain mapping and the empty mapping
    otherwise; the context carries the [agentId] and [sessionKey] of the
    wrapper's context, and neither when the tool was wrapped without
    one. *)
Theorem X14_before_event_contents (T : Tool) f (ctx : option HookContext)
    (toolCallId : string) (params : jsval)
    (signal : AbortSignal) (onUpdate : UpdateCallback) (st : State)
    (hookRunner : HookRunner World) (w1 : World)
    (Hex : execute T = Some (external_tool f))
    (Hreg : Registered hookRunner "before_tool_call" (world st) w1) :
  let name :=
    normalizeToolName (if decide (tool_name T = "") then "tool"
                       else tool_name T) in
  let event :=
    {| bev_toolName := name;
       bev_params := if isPlainObject params then params else JObj ∅ |} in
  let hctx :=
    {| tc_toolName := name;
       tc_agentId := ctx ≫= agentId;
       tc_sessionKey := ctx ≫= sessionKey |} in
  (ctx = None → tc_agentId hctx = None ∧ tc_sessionKey hctx = None)
  ∧ ∃ evs,
      trace (snd (invoke (wrapToolWithBeforeToolCallHook T ctx)
                    toolCallId params signal onUpdate st))
      = trace st ++ EvRunBeforeToolCall event hctx :: evs.
Proof.
  intros name event hctx. split; [by intros ->|].
  rewrite (invoke_wrapped _ _ _ Hex).
  destruct (before_registered_trace
    (before_args (str_or (tool_name T) "tool") ctx toolCallId params) st _ _ Hreg)
    as (evsb & Htrb & _).
  assert (Hname : normalized_name (str_or (tool_name T) "tool") = name).
  { unfold normalized_name, name. rewrite str_or_idem. unfold str_or.
    destruct (String.eqb_spec (tool_name T) ""); by case_decide. }
  unfold before_event, before_ctx, hook_context in Htrb. simpl in Htrb.
  rewrite Hname in Htrb. fold event hctx in Htrb.
  destruct (runBeforeToolCallHook _ st) as [[[why|params']|err] st1] eqn:Hb;
    simpl in Htrb.
  - rewrite (wrapped_before_blocks Hb). by exists evsb.
  - destruct (wrapped_executes_once f _ _
      (receiver (wrapToolWithBeforeToolCallHook T ctx)) _ _ signal onUpdate
      _ _ _ Hb)
      as (evsa & Htra & _).
    rewrite Htra, Htrb. eexists. by rewrite <- app_assoc.
  - rewrite (wrapped_before_rejects Hb). by exists evsb.
Qed.

End Properties.

(** * Worked instances *)

Module Instances.
Import Demo.

(** A runner is installed but has no handlers: the echo tool behaves
    wrapped as it does bare. *)
Lemma C1_witness :
  let E := env (Some (runner [] (Resolved None) (Resolved None))) in
  let T := tool E (Some (external_tool (H:=E) echo)) in
  invoke (H:=E) (wrapToolWithBeforeToolCallHook T None)
         "call-1" (JStr "raw-string") tt tt (start E 0%Z)
  = invoke (H:=E) T "call-1" (JStr "raw-string") tt tt (start E 0%Z).
Proof.
  intros E T.
  refine (proj1 (proj2 (C1_passthrough_without_hooks (H:=E) T
                          (external_tool (H:=E) echo) None
                          "call-1" (JStr "raw-string") tt tt (start E 0%Z)
                          eq_refl _ _))
                eq_refl).
  - reflexivity.
  - intros toolResult st2 _. reflexivity.
Defined.

(** No runner is installed.  A tool whose [execute] answers [this.name]
    resolves to its name when invoked directly; wrapped, its [execute] is
    called with no receiver and the call rejects. *)
Lemma C1_counterexample :
  let E := env None in
  let T := tool E (Some (external_tool (H:=E) whoami)) in
  getGlobalHookRunner (Collaborators:=E) 0%Z = None
  ∧ fst (invoke (H:=E) T "call-1" (JStr "raw-string") tt tt (start E 0%Z))
    = Resolved (JStr "read")
  ∧ fst (invoke (H:=E) (wrapToolWithBeforeToolCallHook T None)
           "call-1" (JStr "raw-string") tt tt (start E 0%Z))
    = Rejected (JsTypeError
                  "Cannot read properties of undefined (reading 'name')")
  ∧ fst (invoke (H:=E) (wrapToolWithBeforeToolCallHook T None)
           "call-1" (JStr "raw-string") tt tt (start E 0%Z))
    ≠ fst (invoke (H:=E) T "call-1" (JStr "raw-string") tt tt (start E 0%Z)).
Proof.
  cbv zeta. repeat split; try (vm_compute; reflexivity).
  vm_compute. discriminate.
Qed.

(** Both hook runs throw: each dispatcher logs a warning and passes the
    original value on. *)
Lemma C2_witness :
  let r := runner both (Rejected (JsError "boom"))
                       (Rejected (JsThrow (JStr "late"))) in
  let E := env (Some r) in
  let bargs := before_args "read" None "call-1" (JStr "raw-string") in
  let aargs := after_args "read" None "call-1" (JStr "raw-string")
                          (JNum 7) 5 in
  runBeforeToolCallHook (H:=E) bargs (start E 0%Z)
  = (Resolved (Allowed (JStr "raw-string")),
     {| world := 0%Z;
        trace :=
          [EvRunBeforeToolCall (before_event (H:=E) bargs) (before_ctx (H:=E) bargs);
           EvWarn "before_tool_call hook failed: tool=read toolCallId=call-1 error=Error: boom"] |})
  ∧ runToolResultReceivedHook (H:=E) aargs (start E 5%Z)
    = (Resolved {| blocked := false; reason := None; result := JNum 7 |},
       {| world := 5%Z;
          trace :=
            [EvRunToolResultReceived (after_event (H:=E) aargs) (after_ctx (H:=E) aargs);
             EvWarn "tool_result_received hook failed: tool=read toolCallId=call-1 error=late"] |}).
Proof.
  intros r E bargs aargs.
  destruct (C2_hook_run_failure_is_not_fatal (H:=E)) as (Hb & Ha & _).
  split.
  - exact (proj1 (Hb bargs (start E 0%Z) r 0%Z 0%Z (JsError "boom")
                    "Error: boom" (conj eq_refl eq_refl) eq_refl eq_refl)).
  - exact (proj1 (Ha aargs (start E 5%Z) r 5%Z 5%Z (JsThrow (JStr "late"))
                    "late" (conj eq_refl eq_refl) eq_refl eq_refl)).
Defined.

(** Two failures of the hook machinery that do reach the caller.  The
    registry query itself throws: either dispatcher and the wrapped tool
    reject with that error, nothing is logged and the tool is not run.
    And a handler throws an object that [String] cannot convert: the
    dispatcher rejects with the [TypeError] of the conversion, and so
    does the wrapped call, without a warning and without running the
    tool. *)
Lemma C2_counterexample :
  let E := env (Some broken_registry) in
  let T := tool E (Some (external_tool (H:=E) echo)) in
  let bargs := before_args "read" None "call-1" (JStr "raw-string") in
  let aargs := after_args "read" None "call-1" (JStr "raw-string")
                          (JNum 7) 5 in
  let r' := runner both (Rejected unprintable) (Rejected unprintable) in
  let E' := env (Some r') in
  let T' := tool E' (Some (external_tool (H:=E') echo)) in
  let dispatched :=
    moved (H:=E') (start E' 0%Z) 0%Z
      [EvRunBeforeToolCall (before_event (H:=E') bargs)
                           (before_ctx (H:=E') bargs)] in
  fst (hasHooks broken_registry "before_tool_call" 0%Z)
    = Rejected (JsError "registry unavailable")
  ∧ runBeforeToolCallHook (H:=E) bargs (start E 0%Z)
    = (Rejected (JsError "registry unavailable"), start E 0%Z)
  ∧ fst (runBeforeToolCallHook (H:=E) bargs (start E 0%Z))
    ≠ Resolved (Allowed (JStr "raw-string"))
  ∧ runToolResultReceivedHook (H:=E) aargs (start E 5%Z)
    = (Rejected (JsError "registry unavailable"), start E 5%Z)
  ∧ fst (runToolResultReceivedHook (H:=E) aargs (start E 5%Z))
    ≠ Resolved {| blocked := false; reason := None; result := JNum 7 |}
  ∧ invoke (H:=E) (wrapToolWithBeforeToolCallHook T None)
           "call-1" (JStr "raw-string") tt tt (start E 0%Z)
    = (Rejected (JsError "registry unavailable"), start E 0%Z)
  ∧ fst (runBeforeToolCall r' (before_event (H:=E') bargs)
                           (before_ctx (H:=E') bargs) 0%Z)
    = Rejected unprintable
  ∧ runBeforeToolCallHook (H:=E') bargs (start E' 0%Z)
    = (Rejected (JsTypeError "Cannot convert object to primitive value"),
       dispatched)
  ∧ fst (runBeforeToolCallHook (H:=E') bargs (start E' 0%Z))
    ≠ Resolved (Allowed (JStr "raw-string"))
  ∧ fst (runToolResultReceivedHook (H:=E') aargs (start E' 5%Z))
    = Rejected (JsTypeError "Cannot convert object to primitive value")
  ∧ invoke (H:=E') (wrapToolWithBeforeToolCallHook T' None)
           "call-1" (JStr "raw-string") tt tt (start E' 0%Z)
    = (Rejected (JsTypeError "Cannot convert object to primitive value"),
       dispatched).
Proof.
  cbv zeta. repeat split; try (vm_compute; reflexivity);
    vm_compute; discriminate.
Qed.

(** A handler blocks with a reason of its own: the echo tool is not
    run and the caller sees that reason. *)
Lemma C3_witness :
  let verdict := {| bres_block := Some true;
                    bres_blockReason := Some "not in this session";
                    bres_params := JUndefined |} in
  let r := runner both (Resolved (Some verdict)) (Resolved None) in
  let E := env (Some r) in
  let T := tool E (Some (external_tool (H:=E) echo)) in
  let args := before_args "read" None "call-1" (JStr "raw-string") in
  invoke (H:=E) (wrapToolWithBeforeToolCallHook T None)
         "call-1" (JStr "raw-string") tt tt (start E 0%Z)
  = (Rejected (JsError "not in this session"),
     {| world := 0%Z;
        trace := [EvRunBeforeToolCall (before_event (H:=E) args)
                                      (before_ctx (H:=E) args)] |}).
Proof.
  intros verdict r E T args.
  destruct (C3_before_block_short_circuits (H:=E) T (external_tool (H:=E) echo)
              None "call-1" (JStr "raw-string") tt tt (start E 0%Z) r 0%Z 0%Z
              verdict eq_refl (conj eq_refl eq_refl) eq_refl eq_refl)
    as (message & Hcall & Hsupplied & _).
  rewrite Hcall.
  rewrite (Hsupplied "not in this session" eq_refl); [reflexivity|discriminate].
Defined.

(** A handler blocks and supplies the empty string as its reason: the
    caller does not see that reason but the default message. *)
Lemma C3_counterexample :
  let verdict := {| bres_block := Some true; bres_blockReason := Some "";
                    bres_params := JUndefined |} in
  let r := runner both (Resolved (Some verdict)) (Resolved None) in
  let E := env (Some r) in
  let T := tool E (Some (external_tool (H:=E) echo)) in
  let call := invoke (H:=E) (wrapToolWithBeforeToolCallHook T None)
                     "call-1" (JStr "raw-string") tt tt (start E 0%Z) in
  fst (runBeforeToolCall r
         {| bev_toolName := "read"; bev_params := JObj ∅ |}
         {| tc_toolName := "read"; tc_agentId := None; tc_sessionKey := None |}
         0%Z)
    = Resolved (Some verdict)
  ∧ bres_blockReason verdict = Some ""
  ∧ fst call = Rejected (JsError "Tool call blocked by plugin hook")
  ∧ fst call ≠ Rejected (JsError "").
Proof.
  cbv zeta. repeat split; try reflexivity. discriminate.
Qed.

(** P3 of the specification, by evaluation. *)
Example merged_params_reach_the_tool :
  let E := env (Some replacing) in
  let T := tool E (Some (external_tool (H:=E) echo)) in
  let args := before_args "read" None "call-1" (JObj original_ab) in
  invoke (H:=E) (wrapToolWithBeforeToolCallHook T None)
         "call-1" (JObj original_ab) tt tt (start E 0%Z)
  = (Resolved (JObj merged_abc),
     {| world := 5%Z;
        trace :=
          [EvRunBeforeToolCall
             {| bev_toolName := "read"; bev_params := JObj original_ab |}
             {| tc_toolName := "read"; tc_agentId := None;
                tc_sessionKey := None |};
           EvExecute (H:=E) "call-1" (JObj merged_abc) tt tt;
           EvRunToolResultReceived
             {| rev_toolName := "read"; rev_params := JObj merged_abc;
                rev_result := JObj merged_abc; rev_durationMs := Some 5%Z |}
             {| tc_toolName := "read"; tc_agentId := None;
                tc_sessionKey := None |}] |}).
Proof. vm_compute. reflexivity. Qed.

Lemma C4_witness :
  let E := env (Some replacing) in
  let args := before_args "read" None "call-1" (JObj original_ab) in
  ∃ chosen : gmap string jsval,
    fst (runBeforeToolCallHook (H:=E) args (start E 0%Z))
      = Resolved (Allowed (JObj chosen))
    ∧ chosen !! "a" = Some (JNum 1)
    ∧ chosen !! "b" = Some (JNum 3)
    ∧ chosen !! "c" = Some (JNum 4).
Proof.
  intros E args.
  destruct (C4_replacement_params_merge (H:=E) args (start E 0%Z) replacing
              0%Z 0%Z
              {| bres_block := None; bres_blockReason := None;
                 bres_params := JObj replacement_bc |}
              replacement_bc (conj eq_refl eq_refl) eq_refl
              ltac:(discriminate) eq_refl)
    as (chosen & Hcall & Hmerge & _).
  destruct (Hmerge original_ab eq_refl) as (_ & Hover & Hkeep).
  exists chosen. rewrite Hcall. split; [reflexivity|].
  split; [|split].
  - rewrite Hkeep; by vm_compute.
  - apply Hover. by vm_compute.
  - apply Hover. by vm_compute.
Defined.

(** P4 of the specification: a string as params, and a verdict that
    offers nothing. *)
Lemma C5_witness :
  let r := runner both
             (Resolved (Some {| bres_block := Some false;
                                bres_blockReason := None;
                                bres_params := JUndefined |}))
             (Resolved None) in
  let E := env (Some r) in
  let args := before_args "read" None "call-1" (JStr "raw-string") in
  runBeforeToolCallHook (H:=E) args (start E 0%Z)
  = (Resolved (Allowed (JStr "raw-string")),
     {| world := 0%Z;
        trace :=
          [EvRunBeforeToolCall
             {| bev_toolName := "read"; bev_params := JObj ∅ |}
             {| tc_toolName := "read"; tc_agentId := None;
                tc_sessionKey := None |}] |}).
Proof.
  intros r E args.
  refine (proj1 (C5_non_mapping_params_untouched (H:=E) args (start E 0%Z)
                   r 0%Z 0%Z _ eq_refl (conj eq_refl eq_refl) eq_refl
                   eq_refl eq_refl)).
Defined.

(** The echo tool resolves, then a handler blocks the result without
    giving a reason. *)
Lemma C6_witness :
  let r := runner both (Resolved None)
             (Resolved (Some {| rres_block := Some true;
                                rres_blockReason := None;
                                rres_result := JUndefined |})) in
  let E := env (Some r) in
  let T := tool E (Some (external_tool (H:=E) echo)) in
  fst (invoke (H:=E) (wrapToolWithBeforeToolCallHook T None)
              "call-1" (JStr "raw-string") tt tt (start E 0%Z))
  = Rejected (JsError "Tool result blocked by plugin hook").
Proof.
  intros r E T.
  destruct (C6_after_block_discards_result (H:=E) T
              (external_tool (H:=E) echo) None "call-1"
              (JStr "raw-string") (JStr "raw-string") tt tt
              (start E 0%Z) _ _ (JStr "raw-string") r 5%Z 5%Z
              {| rres_block := Some true; rres_blockReason := None;
                 rres_result := JUndefined |}
              eq_refl eq_refl eq_refl (conj eq_refl eq_refl) eq_refl eq_refl)
    as (message & _ & Hcall & _ & Hdefault).
  rewrite Hcall. simpl. by rewrite Hdefault; [|left].
Defined.

(** The echo tool resolves, then a handler blocks the result and
    supplies the empty string as its reason: the caller sees the default
    message. *)
Lemma C6_counterexample :
  let verdict := {| rres_block := Some true; rres_blockReason := Some "";
                    rres_result := JUndefined |} in
  let r := runner both (Resolved None) (Resolved (Some verdict)) in
  let E := env (Some r) in
  let T := tool E (Some (external_tool (H:=E) echo)) in
  let call := invoke (H:=E) (wrapToolWithBeforeToolCallHook T None)
                     "call-1" (JStr "raw-string") tt tt (start E 0%Z) in
  fst (runToolResultReceived r
         {| rev_toolName := "read"; rev_params := JStr "raw-string";
            rev_result := JStr "raw-string"; rev_durationMs := Some 5%Z |}
         {| tc_toolName := "read"; tc_agentId := None; tc_sessionKey := None |}
         5%Z)
    = Resolved (Some verdict)
  ∧ rres_blockReason verdict = Some ""
  ∧ fst call = Rejected (JsError "Tool result blocked by plugin hook")
  ∧ fst call ≠ Rejected (JsError "").
Proof.
  cbv zeta. repeat split; try reflexivity. discriminate.
Qed.

(** P8 of the specification: a handler replaces the result by [0]. *)
Lemma C7_witness :
  let r := runner both (Resolved None)
             (Resolved (Some {| rres_block := None;
                                rres_blockReason := None;
                                rres_result := JNum 0 |})) in
  let E := env (Some r) in
  let args := after_args "read" None "call-1" (JStr "raw-string")
                         (JStr "forty-two") 5 in
  fst (runToolResultReceivedHook (H:=E) args (start E 5%Z))
  = Resolved {| blocked := false; reason := None; result := JNum 0 |}.
Proof.
  intros r E args.
  destruct (C7_replacement_result_verbatim (H:=E) args (start E 5%Z) r
              5%Z 5%Z _ (conj eq_refl eq_refl) eq_refl eq_refl)
    as (chosen & Hcall & Hdefined & _).
  rewrite Hcall. simpl. by rewrite Hdefined.
Defined.

(** No runner is installed and the tool fails. *)
Lemma C8_witness :
  let E := env None in
  let T := tool E (Some (external_tool (H:=E) failing)) in
  invoke (H:=E) (wrapToolWithBeforeToolCallHook T None)
         "call-1" (JStr "raw-string") tt tt (start E 0%Z)
  = (Rejected (JsError "disk full"),
     {| world := 1%Z;
        trace := [EvExecute (H:=E) "call-1" (JStr "raw-string") tt tt] |}).
Proof.
  intros E T.
  refine (proj1 (C8_tool_failure_propagates (H:=E) T
                   (external_tool (H:=E) failing) None "call-1"
                   (JStr "raw-string") (JStr "raw-string") tt tt
                   (start E 0%Z) (start E 0%Z) _ _ eq_refl eq_refl eq_refl)).
Defined.

(** An object literal as tool: its own name and label are read on the
    wrapped tool as on the tool; a tool without [execute] is returned
    as it is. *)
Lemma C9_witness :
  let E := env None in
  let T := tool E (Some (external_tool (H:=E) echo)) in
  let W := wrapToolWithBeforeToolCallHook (H:=E) T None in
  get_data W "name" = Some (JStr "read")
  ∧ get_data W "label" = get_data T "label"
  ∧ wrapToolWithBeforeToolCallHook (H:=E) (tool E None) None = tool E None.
Proof.
  intros E T W.
  destruct (C9_wrap_frame (H:=E) T None) as (_ & Hsome).
  destruct (Hsome _ eq_refl) as (_ & _ & _ & Hget & Hsame).
  split; [exact (Hget "name")|]. split.
  - apply Hsame. left. by eexists.
  - exact (proj1 (C9_wrap_frame (H:=E) (tool E None) None) eq_refl).
Defined.

(** An instance of a class that keeps [name] and [execute] on its
    prototype: the tool reads as named "read" and the wrapped tool has no
    name at all, so that the hooks of a second wrapping are told the
    tool is called "tool". *)
Lemma C9_counterexample :
  let E := env (Some refusing) in
  let T := instance E (Some (external_tool (H:=E) echo)) in
  let W := wrapToolWithBeforeToolCallHook (H:=E) T None in
  get_data T "name" = Some (JStr "read")
  ∧ get_data W "name" = None
  ∧ tool_name T = "read"
  ∧ tool_name W = ""
  ∧ tool_name W ≠ tool_name T
  ∧ get_data W "label" = get_data T "label"
  ∧ trace (snd (invoke (H:=E) (wrapToolWithBeforeToolCallHook W None)
                  "call-1" (JStr "raw-string") tt tt (start E 0%Z)))
    = [EvRunBeforeToolCall (H:=E)
         {| bev_toolName := "tool"; bev_params := JObj ∅ |}
         {| tc_toolName := "tool"; tc_agentId := None;
            tc_sessionKey := None |}].
Proof.
  cbv zeta. repeat split; try (vm_compute; reflexivity).
  vm_compute. discriminate.
Qed.

(** A handler blocks and gives the empty string as its reason. *)
Lemma C10_witness :
  let verdict := {| bres_block := Some true; bres_blockReason := Some "";
                    bres_params := JUndefined |} in
  let r := runner both (Resolved (Some verdict)) (Resolved None) in
  let E := env (Some r) in
  let args := before_args "read" None "call-1" (JStr "raw-string") in
  fst (runBeforeToolCallHook (H:=E) args (start E 0%Z))
  = Resolved (Blocked "Tool call blocked by plugin hook").
Proof.
  intros verdict r E args.
  refine (proj1 (proj2 (proj2 (C10_block_reason_never_empty (H:=E))))
            args (start E 0%Z) r 0%Z 0%Z verdict
            (conj eq_refl eq_refl) eq_refl eq_refl (or_intror eq_refl)).
Defined.

End Instances.

(** * Further worked instances *)

Module Coverage.
Import Demo.

(** A handler throws an object that [String] cannot convert: the
    dispatcher rejected with the error of the conversion. *)
Lemma X2_witness :
  let r := runner both (Rejected unprintable) (Resolved None) in
  let E := env (Some r) in
  let args := before_args "read" None "call-1" (JStr "raw-string") in
  ∃ thrown,
    fst (runBeforeToolCall r (before_event (H:=E) args)
                           (before_ctx (H:=E) args) 0%Z)
      = Rejected thrown
    ∧ String_of (Collaborators:=E) thrown
      = Rejected (JsTypeError "Cannot convert object to primitive value").
Proof.
  intros r E args.
  destruct (proj1 (X2_how_dispatchers_reject (H:=E)) args (start E 0%Z)
              (moved (H:=E) (start E 0%Z) 0%Z
                 [EvRunBeforeToolCall (before_event (H:=E) args)
                                      (before_ctx (H:=E) args)])
              (JsTypeError "Cannot convert object to primitive value")
              eq_refl)
    as (r' & Hget & [[Hhas _] | (w1 & thrown & Hhas & Hrun & Hstr & _)]);
    injection Hget as <-.
  - discriminate Hhas.
  - injection Hhas as <-. exists thrown.
    split; [exact (f_equal fst Hrun)|exact Hstr].
Defined.

(** A block is traced back to the verdict that asked for it. *)
Lemma X3_witness :
  let E := env (Some refusing) in
  let args := before_args "read" None "call-1" (JStr "raw-string") in
  ∃ hookRunner w1 verdict,
    Registered (H:=E) hookRunner "before_tool_call" 0%Z w1
    ∧ runBeforeToolCall hookRunner (before_event (H:=E) args)
                        (before_ctx (H:=E) args) w1
      = (Resolved (Some verdict), 0%Z)
    ∧ bres_block verdict = Some true
    ∧ "not in this session"
      = opt_str_or (bres_blockReason verdict) "Tool call blocked by plugin hook".
Proof.
  intros E args.
  exact (proj1 (X3_only_a_verdict_blocks (H:=E)) args (start E 0%Z)
           (moved (H:=E) (start E 0%Z) 0%Z
              [EvRunBeforeToolCall (before_event (H:=E) args)
                                   (before_ctx (H:=E) args)])
           "not in this session" eq_refl).
Defined.

(** A string as params and the empty mapping as replacement. *)
Lemma X5_witness :
  let E := env (Some (offering (JObj ∅))) in
  fst (runBeforeToolCallHook (H:=E)
         (before_args "read" None "call-1" (JStr "raw-string")) (start E 0%Z))
  = Resolved (Allowed (JObj ∅)).
Proof.
  intros E.
  refine (proj2 (X5_empty_replacement (H:=E)
                   (before_args "read" None "call-1" (JStr "raw-string"))
                   (start E 0%Z) (offering (JObj ∅)) 0%Z 0%Z _
                   (conj eq_refl eq_refl) eq_refl _ eq_refl) eq_refl).
  discriminate.
Defined.

(** An array offered as replacement for a mapping. *)
Lemma X6_witness :
  let E := env (Some (offering (JArr [JNum 1]))) in
  fst (runBeforeToolCallHook (H:=E)
         (before_args "read" None "call-1" (JObj original_ab)) (start E 0%Z))
  = Resolved (Allowed (JObj original_ab)).
Proof.
  intros E.
  pose proof (proj1 (X6_non_mapping_replacement_is_ignored (H:=E)
                (before_args "read" None "call-1" (JObj original_ab))
                (start E 0%Z) (offering (JArr [JNum 1])) 0%Z 0%Z _
                (conj eq_refl eq_refl) eq_refl eq_refl
                ltac:(discriminate))) as Hcall.
  by rewrite Hcall.
Defined.

(** P7 of the specification: the before-call hook takes a hundred
    milliseconds, the tool five; the duration reported is five. *)
Lemma X7_witness :
  let E := env (Some slow_before) in
  let T := tool E (Some (external_tool (H:=E) echo)) in
  let dispatch :=
    EvRunBeforeToolCall (H:=E)
      {| bev_toolName := "read"; bev_params := JObj ∅ |}
      {| tc_toolName := "read"; tc_agentId := None; tc_sessionKey := None |} in
  ∃ evs,
    trace (snd (invoke (H:=E) (wrapToolWithBeforeToolCallHook T None)
                  "call-1" (JStr "raw-string") tt tt (start E 0%Z)))
    = [dispatch; EvExecute (H:=E) "call-1" (JStr "raw-string") tt tt]
      ++ EvRunToolResultReceived
           {| rev_toolName := "read"; rev_params := JStr "raw-string";
              rev_result := JStr "raw-string"; rev_durationMs := Some 5%Z |}
           {| tc_toolName := "read"; tc_agentId := None;
              tc_sessionKey := None |} :: evs
    ∧ length evs ≤ 1.
Proof.
  intros E T dispatch.
  exact (X7_after_event_contents (H:=E) T (external_tool (H:=E) echo) None
           "call-1" (JStr "raw-string") (JStr "raw-string") tt tt
           (start E 0%Z)
           {| world := 100%Z; trace := [dispatch] |}
           {| world := 105%Z;
              trace := [dispatch;
                        EvExecute (H:=E) "call-1" (JStr "raw-string") tt tt] |}
           (JStr "raw-string") slow_before 105%Z
           eq_refl eq_refl eq_refl (conj eq_refl eq_refl)).
Defined.

(** The echo tool under a replacing hook: one execution. *)
Lemma X9_witness :
  let E := env (Some replacing) in
  let T := tool E (Some (external_tool (H:=E) echo)) in
  ∃ evs,
    trace (snd (invoke (H:=E) (wrapToolWithBeforeToolCallHook T None)
                  "call-1" (JObj original_ab) tt tt (start E 0%Z)))
    = trace (start E 0%Z) ++ evs
    ∧ (List.filter is_execute evs = []
       ∨ ∃ params',
           List.filter is_execute evs = [EvExecute (H:=E) "call-1" params' tt tt]).
Proof.
  intros E T.
  exact (X9_at_most_one_execution (H:=E) T echo None "call-1"
           (JObj original_ab) tt tt (start E 0%Z) eq_refl).
Defined.

(** No runner is installed and the wrapped call rejected: the
    before-call dispatcher had allowed the call and the tool's own
    [execute] rejected. *)
Lemma X10_witness :
  let E := env None in
  let ex := external_tool (H:=E) failing in
  let st' := moved (H:=E) (start E 0%Z) 1%Z
               [EvExecute (H:=E) "call-1" (JStr "raw-string") tt tt] in
  ∃ params' st1,
    runBeforeToolCallHook (H:=E)
      (before_args "read" None "call-1" (JStr "raw-string")) (start E 0%Z)
      = (Resolved (Allowed params'), st1)
    ∧ ex JUndefined "call-1" params' tt tt st1
      = (Rejected (JsError "disk full"), st').
Proof.
  intros E ex st'.
  destruct (X10_wrapped_rejection_causes (H:=E) (tool E (Some ex)) ex None
              "call-1" (JStr "raw-string") tt tt (start E 0%Z) st'
              (JsError "disk full") eq_refl eq_refl)
    as [Hb | [(why & Hb & _)
             | (params' & st1 & Hb
                & [Htool | (toolResult & st2 & Htool & _)])]].
  - discriminate Hb.
  - discriminate Hb.
  - by exists params', st1.
  - discriminate Htool.
Defined.

(** The echo tool resolved, so it had been executed. *)
Lemma X11_witness :
  let E := env (Some zeroing) in
  let ex := external_tool (H:=E) echo in
  ∃ params' st1 toolResult st2,
    ex JUndefined "call-1" params' tt tt st1 = (Resolved toolResult, st2)
    ∧ (JNum 0 = toolResult ∨ JNum 0 ≠ JUndefined).
Proof.
  intros E ex.
  destruct (X11_wrapped_resolution (H:=E) (tool E (Some ex)) ex None
              "call-1" (JStr "raw-string") tt tt (start E 0%Z)
              (snd (invoke (H:=E)
                      (wrapToolWithBeforeToolCallHook (tool E (Some ex)) None)
                      "call-1" (JStr "raw-string") tt tt (start E 0%Z)))
              (JNum 0) eq_refl eq_refl)
    as (params' & st1 & toolResult & st2 & outcome & _ & Htool & _ & _ & _ & Hv).
  by exists params', st1, toolResult, st2.
Defined.

(** The outcome for a result replaced by [0]. *)
Lemma X12_witness :
  let outcome := {| blocked := false; reason := None; result := JNum 0 |} in
  (blocked outcome = true ↔ is_Some (reason outcome))
  ∧ (blocked outcome = true → result outcome = JStr "forty-two")
  ∧ (result outcome = JStr "forty-two" ∨ result outcome ≠ JUndefined).
Proof.
  intros outcome.
  pose (E := env (Some zeroing)).
  pose (args := after_args "read" None "call-1" (JStr "raw-string")
                           (JStr "forty-two") 5).
  exact (X12_after_outcome_wellformed (H:=E) args (start E 5%Z)
           (moved (H:=E) (start E 5%Z) 5%Z
              [EvRunToolResultReceived (after_event (H:=E) args)
                                       (after_ctx (H:=E) args)])
           outcome eq_refl).
Defined.

(** A tool wrapped twice under a refusing hook: one dispatch, with the
    outer context. *)
Lemma X13_witness :
  let E := env (Some refusing) in
  let T := tool E (Some (external_tool (H:=E) echo)) in
  let args := before_args "read" (Some session) "call-1" (JStr "raw-string") in
  invoke (H:=E)
    (wrapToolWithBeforeToolCallHook (wrapToolWithBeforeToolCallHook T None)
       (Some session))
    "call-1" (JStr "raw-string") tt tt (start E 0%Z)
  = (Rejected (JsError "not in this session"),
     {| world := 0%Z;
        trace := [EvRunBeforeToolCall (before_event (H:=E) args)
                                      (before_ctx (H:=E) args)] |}).
Proof.
  intros E T args.
  refine (proj1 (proj2 (proj2
            (X13_wrapping_twice (H:=E) T None (Some session))))
            "call-1" (JStr "raw-string") tt tt (start E 0%Z) refusing 0%Z 0%Z
            _ _ (conj eq_refl eq_refl) eq_refl eq_refl).
  by eexists.
Defined.

(** A tool without a name, wrapped with a session context. *)
Lemma X14_witness :
  let E := env (Some slow_before) in
  let T := nameless E (Some (external_tool (H:=E) echo)) in
  ∃ evs,
    trace (snd (invoke (H:=E) (wrapToolWithBeforeToolCallHook T (Some session))
                  "call-1" (JObj original_ab) tt tt (start E 0%Z)))
    = EvRunBeforeToolCall (H:=E)
        {| bev_toolName := "tool"; bev_params := JObj original_ab |}
        {| tc_toolName := "tool"; tc_agentId := Some "main";
           tc_sessionKey := Some "s-1" |} :: evs.
Proof.
  intros E T.
  exact (proj2 (X14_before_event_contents (H:=E) T echo (Some session)
                  "call-1" (JObj original_ab) tt tt (start E 0%Z)
                  slow_before 0%Z eq_refl (conj eq_refl eq_refl))).
Defined.

End Coverage.
